(** * Kashgari: [kashgari/embeddings/word_embedding.py]

    A shallow embedding of the [WordEmbedding] class (pre-trained word2vec
    embedding) and the properties of its vocabulary construction
    ([_build_token2idx_from_w2v]), of its graph construction ([_build_model])
    and of the loading guard of [analyze_corpus].

    Conventions.
    - Python [int]s that only count or index are [nat].
    - A [float64] is a primitive binary64 float; the code never computes on
      one, it only stores and copies them.
    - A Python [dict] keeps insertion order; it is an association list with
      unique keys, see [PyDict].
    - A two-dimensional [numpy.ndarray] is its shape and the list of its
      rows; an assignment to a row or a slice broadcasts as numpy does and
      raises when the shapes do not fit.
    - gensim and keras are outside the repository: the loader is what the
      world answers for a path, with the guarantees of [KeyedVectors_ok], and
      keras builds a symbolic graph, with the checks it makes when a layer
      is made or called.
    - A method is a computation over a heap holding the object and the outside
      world; an exception ends a computation and keeps the heap as it is at
      the point of the raise, see [M].
    - [logging.debug] calls have no effect on the object and are left out. *)

From Stdlib Require Import List String Ascii Arith Bool Lia PrimFloat.
From Stdlib Require Import Decimal DecimalString DecimalNat.
Import ListNotations.
Local Open Scope string_scope.
Local Open Scope list_scope.
Local Open Scope nat_scope.

Set Implicit Arguments.
Set Warnings "-register-all".

(* ===================================================================== *)
(** ** Python dictionaries *)
(* ===================================================================== *)

Module PyDict.
Section Dict.

Variables K V : Type.
Variable eq_dec : forall x y : K, {x = y} + {x <> y}.

(** The items in insertion order; keys are unique. *)
Definition t := list (K * V).

Definition empty : t := [].

(** [d[k]], [None] standing for [KeyError]. *)
Fixpoint get (d : t) (k : K) : option V :=
  match d with
  | [] => None
  | (k', v') :: d' => if eq_dec k k' then Some v' else get d' k
  end.

(** [d[k] = v]: a key already present keeps its place and takes the new
    value; a new key goes last. *)
Fixpoint setitem (d : t) (k : K) (v : V) : t :=
  match d with
  | [] => [(k, v)]
  | (k', v') :: d' =>
      if eq_dec k k' then (k', v) :: d' else (k', v') :: setitem d' k v
  end.

(** [len(d)] *)
Definition len (d : t) : nat := List.length d.

(** [d.items()] *)
Definition items (d : t) : list (K * V) := d.

(** [d.keys()] and [d.values()] *)
Definition keys (d : t) : list K := map fst d.
Definition values (d : t) : list V := map snd d.

(** [dict(pairs)], and the display [{k1: v1, k2: v2, ...}]: the pairs are
    inserted from left to right, a repeated key taking the last value. *)
Definition of_items (l : list (K * V)) : t :=
  fold_left (fun d kv => setitem d (fst kv) (snd kv)) l empty.

End Dict.
End PyDict.

Definition str_dict := PyDict.t string nat.
Definition int_dict := PyDict.t nat string.

(* ===================================================================== *)
(** ** Exceptions and outcomes *)
(* ===================================================================== *)

Inductive Exn : Type :=
| LibraryError (msg : string)     (* whatever the gensim loader raises *)
| AttributeError (name : string)  (* reading an attribute not yet set *)
| IndexError                      (* numpy: index out of bounds *)
| ValueError.                     (* numpy: could not broadcast *)

Inductive outcome (A : Type) : Type :=
| Ok (a : A)
| Raise (e : Exn).

Arguments Ok {A} a.
Arguments Raise {A} e.

(* ===================================================================== *)
(** ** numpy arrays *)
(* ===================================================================== *)

(** A one-dimensional array; its shape is its length. *)
Definition vector := list float.

(** A two-dimensional array carries its shape, so that an array without
    rows still has a width. *)
Record ndarray : Type := mk_ndarray {
  shape : nat * nat;
  rows : list vector
}.

(** The rows agree with the shape. *)
Definition ndarray_ok (a : ndarray) : bool :=
  (List.length (rows a) =? fst (shape a))
  && forallb (fun r => List.length r =? snd (shape a)) (rows a).

(** [np.zeros((r, c))] *)
Definition np_zeros (r c : nat) : ndarray :=
  {| shape := (r, c); rows := repeat (repeat 0%float c) r |}.

(** Broadcasting a one-dimensional value of length [List.length v] to length
    [c]: the lengths agree, or the value has one entry, repeated. *)
Definition broadcast_vector (v : vector) (c : nat) : option vector :=
  if List.length v =? c then Some v
  else if List.length v =? 1 then Some (repeat (hd 0%float v) c)
  else None.

(** Broadcasting a two-dimensional array to shape [(k, c)]: each dimension
    agrees or is 1. *)
Definition broadcast_ndarray (src : ndarray) (k c : nat) : option (list vector) :=
  let n := fst (shape src) in
  let c' := snd (shape src) in
  if ((n =? k) || (n =? 1)) && ((c' =? c) || (c' =? 1)) then
    let widen := fun r : vector => if c' =? c then r else repeat (hd 0%float r) c in
    let rs := if n =? k then rows src else repeat (hd [] (rows src)) k in
    Some (map widen rs)
  else None.

(** [m[i] = v] for a non-negative [i] *)
Definition setitem_row (m : ndarray) (i : nat) (v : vector) : outcome ndarray :=
  if i <? fst (shape m) then
    match broadcast_vector v (snd (shape m)) with
    | Some v' =>
        Ok {| shape := shape m;
              rows := firstn i (rows m) ++ v' :: skipn (S i) (rows m) |}
    | None => Raise ValueError
    end
  else Raise IndexError.

(** [m[start:] = src]: the slice has the rows from [start] on, none when the
    array has fewer. *)
Definition setitem_from (m : ndarray) (start : nat) (src : ndarray) : outcome ndarray :=
  match broadcast_ndarray src (fst (shape m) - start) (snd (shape m)) with
  | Some rs => Ok {| shape := shape m; rows := firstn start (rows m) ++ rs |}
  | None => Raise ValueError
  end.

(* ===================================================================== *)
(** ** gensim: [KeyedVectors] *)
(* ===================================================================== *)

(** The values of the keyword arguments handed on to the loader. *)
Inductive PyAny : Type :=
| PyNone
| PyBool (b : bool)
| PyInt (n : nat)
| PyStr (s : string).

Definition Kwargs := list (string * PyAny).

Record KeyedVectors : Type := mk_KeyedVectors {
  index2word : list string;
  index2entity : list string;
  vectors : ndarray;
  vector_size : nat
}.

(** No token twice. *)
Fixpoint distinct (l : list string) : bool :=
  match l with
  | [] => true
  | x :: l' => negb (existsb (String.eqb x) l') && distinct l'
  end.

(** No token of [l1] is in [l2]. *)
Definition disjoint (l1 l2 : list string) : bool :=
  forallb (fun x => negb (existsb (String.eqb x) l2)) l1.

(** What [load_word2vec_format] guarantees of its result: a word met a second
    time in the file is ignored, and [vectors] has one row per word, of
    [vector_size] entries. *)
Definition KeyedVectors_ok (w2v : KeyedVectors) : bool :=
  distinct (index2word w2v)
  && ndarray_ok (vectors w2v)
  && (fst (shape (vectors w2v)) =? List.length (index2word w2v))
  && (snd (shape (vectors w2v)) =? vector_size w2v).

(* ===================================================================== *)
(** ** keras: symbolic graphs *)
(* ===================================================================== *)

(** keras is used as a graph builder: a layer or tensor records the
    arguments it was made from, and making or calling a layer raises
    [ValueError] where keras refuses the arguments. *)

(** One entry of a shape; [None] is a variable length. *)
Definition dim := option nat.

Inductive Layer : Type :=
| L_Embedding (input_dim output_dim : nat) (weights : list ndarray)
    (trainable : bool) (name : string)
| L_Concatenate (name : string).

Inductive Tensor : Type :=
| L_Input (shape : list dim) (name : string)
| Call (layer : Layer) (input : Tensor)          (* [layer(tensor)] *)
| CallList (layer : Layer) (inputs : list Tensor). (* [layer([t1, ...])] *)

(** [keras.Model(inputs, outputs)]; the second argument is a tensor or a
    list of tensors. *)
Record Model : Type := keras_Model {
  inputs : list Tensor;
  outputs : Tensor + list Tensor
}.

(** The layers a tensor is computed by, innermost first. *)
Fixpoint layers_of (t : Tensor) : list Layer :=
  match t with
  | L_Input _ _ => []
  | Call l t' => layers_of t' ++ [l]
  | CallList l ts => flat_map layers_of ts ++ [l]
  end.

(** The input placeholders a tensor is computed from. *)
Fixpoint placeholders_of (t : Tensor) : list Tensor :=
  match t with
  | L_Input _ _ => [t]
  | Call _ t' => placeholders_of t'
  | CallList _ ts => flat_map placeholders_of ts
  end.

Definition model_layers (m : Model) : list Layer :=
  match outputs m with
  | inl t => layers_of t
  | inr ts => flat_map layers_of ts
  end.

Definition model_placeholders (m : Model) : list Tensor :=
  match outputs m with
  | inl t => placeholders_of t
  | inr ts => flat_map placeholders_of ts
  end.

(** *** The checks of keras *)

(** The shape of a tensor, the batch dimension left out: an embedding adds
    its [output_dim] as last axis, a concatenation on the last axis adds the
    last dimensions up, a variable one making the sum variable. *)
Definition add_dim (a b : dim) : dim :=
  match a, b with
  | Some x, Some y => Some (x + y)
  | _, _ => None
  end.

Definition concatenated_shape (shapes : list (list dim)) : list dim :=
  match shapes with
  | [] => []
  | s :: rest =>
      removelast s
      ++ [fold_left add_dim (map (fun s' => last s' None) rest) (last s None)]
  end.

Fixpoint tensor_shape (t : Tensor) : list dim :=
  match t with
  | L_Input s _ => s
  | Call (L_Embedding _ output_dim _ _ _) t' => tensor_shape t' ++ [Some output_dim]
  | Call (L_Concatenate _) t' => tensor_shape t'
  | CallList _ ts => concatenated_shape (map tensor_shape ts)
  end.

(** Two dimensions fit when one of them is variable or they are equal. *)
Definition dim_compatible (a b : dim) : bool :=
  match a, b with
  | Some x, Some y => x =? y
  | _, _ => true
  end.

Fixpoint dims_compatible (s1 s2 : list dim) : bool :=
  match s1, s2 with
  | [], [] => true
  | a :: s1', b :: s2' => dim_compatible a b && dims_compatible s1' s2'
  | _, _ => false
  end.

Fixpoint all_compatible (shapes : list (list dim)) : bool :=
  match shapes with
  | [] => true
  | s :: rest => forallb (dims_compatible s) rest && all_compatible rest
  end.

(** [Concatenate] with its default axis -1 takes inputs whose shapes, the
    last axis apart, have the same rank and on no axis two different fixed
    dimensions. *)
Definition concatenate_accepts (shapes : list (list dim)) : bool :=
  match shapes with
  | [] => false
  | _ :: _ => all_compatible (map (@removelast dim) shapes)
  end.

Definition shape_eqb (s1 s2 : nat * nat) : bool :=
  (fst s1 =? fst s2) && (snd s1 =? snd s2).

(** [L.Embedding(input_dim, output_dim, weights=..., trainable=...,
    name=...)]: both dimensions have to be positive. *)
Definition keras_Embedding (input_dim output_dim : nat) (weights : list ndarray)
  (trainable : bool) (name : string) : outcome Layer :=
  if (0 <? input_dim) && (0 <? output_dim) then
    Ok (L_Embedding input_dim output_dim weights trainable name)
  else Raise ValueError.

(** [layer(tensor)]: the call builds an embedding layer and sets the weights
    given at its making, one array of shape [(input_dim, output_dim)]. A
    [Concatenate] layer is not called on one tensor. *)
Definition call_layer (l : Layer) (t : Tensor) : outcome Tensor :=
  match l with
  | L_Embedding input_dim output_dim weights _ _ =>
      match weights with
      | [w] =>
          if shape_eqb (shape w) (input_dim, output_dim) then Ok (Call l t)
          else Raise ValueError
      | _ => Raise ValueError
      end
  | L_Concatenate _ => Raise ValueError
  end.

(** [layer([t1, ...])]: a [Concatenate] layer checks the shapes of its
    inputs. An embedding layer is not called on a list. *)
Definition call_layer_list (l : Layer) (ts : list Tensor) : outcome Tensor :=
  match l with
  | L_Concatenate _ =>
      if concatenate_accepts (map tensor_shape ts) then Ok (CallList l ts)
      else Raise ValueError
  | L_Embedding _ _ _ _ _ => Raise ValueError
  end.

Definition is_embedding (l : Layer) : bool :=
  match l with L_Embedding _ _ _ _ _ => true | L_Concatenate _ => false end.

Definition is_concatenate (l : Layer) : bool :=
  match l with L_Concatenate _ => true | L_Embedding _ _ _ _ _ => false end.

(** [str(n)], as an f-string formats an index. *)
Definition str (n : nat) : string := NilEmpty.string_of_uint (Nat.to_uint n).

(** [enumerate(l)] *)
Definition enumerate (A : Type) (l : list A) : list (nat * A) :=
  combine (seq 0 (List.length l)) l.

(* ===================================================================== *)
(** ** The objects *)
(* ===================================================================== *)

(** The pre-processor, as far as this file reads and writes it. *)
Record Processor : Type := mk_Processor {
  token_pad : string;
  token_unk : string;
  token_bos : string;
  token_eos : string;
  token2idx : str_dict;
  idx2token : int_dict
}.

(** The attributes of a [WordEmbedding]. An attribute that the constructor
    does not set is [None] until a method assigns it. The base-class
    constructor leaves a processor in place ([analyze_corpus] reads it on an
    object built without one) and [sequence_length] is read as the tuple of
    the configured lengths. *)
Record WordEmbedding : Type := mk_WordEmbedding {
  w2v_path : string;
  w2v_kwargs : Kwargs;
  w2v_model_loaded : bool;
  embedding_size : nat;
  sequence_length : list dim;
  processor : Processor;
  w2v_vector_matrix : option ndarray;
  w2v_token2idx : option str_dict;
  w2v_top_words : option (list string);
  embed_model : option Model
}.

(** The world outside the object: what the loader answers for a path and
    keyword arguments, how often it was called, and numpy's global random
    generator, as the sequence of its draws and the position in it. *)
Record World : Type := mk_World {
  disk : string -> Kwargs -> outcome KeyedVectors;
  load_calls : nat;
  rand_source : nat -> float;
  rand_pos : nat
}.

Record Heap : Type := mk_Heap {
  self : WordEmbedding;
  world : World
}.

(** *** Attribute assignment *)

Definition set_embedding_size (v : nat) (o : WordEmbedding) : WordEmbedding :=
  mk_WordEmbedding (w2v_path o) (w2v_kwargs o) (w2v_model_loaded o) v
    (sequence_length o) (processor o) (w2v_vector_matrix o) (w2v_token2idx o)
    (w2v_top_words o) (embed_model o).

Definition set_w2v_vector_matrix (v : ndarray) (o : WordEmbedding) : WordEmbedding :=
  mk_WordEmbedding (w2v_path o) (w2v_kwargs o) (w2v_model_loaded o)
    (embedding_size o) (sequence_length o) (processor o) (Some v)
    (w2v_token2idx o) (w2v_top_words o) (embed_model o).

Definition set_w2v_token2idx (v : str_dict) (o : WordEmbedding) : WordEmbedding :=
  mk_WordEmbedding (w2v_path o) (w2v_kwargs o) (w2v_model_loaded o)
    (embedding_size o) (sequence_length o) (processor o) (w2v_vector_matrix o)
    (Some v) (w2v_top_words o) (embed_model o).

Definition set_w2v_top_words (v : list string) (o : WordEmbedding) : WordEmbedding :=
  mk_WordEmbedding (w2v_path o) (w2v_kwargs o) (w2v_model_loaded o)
    (embedding_size o) (sequence_length o) (processor o) (w2v_vector_matrix o)
    (w2v_token2idx o) (Some v) (embed_model o).

Definition set_w2v_model_loaded (v : bool) (o : WordEmbedding) : WordEmbedding :=
  mk_WordEmbedding (w2v_path o) (w2v_kwargs o) v
    (embedding_size o) (sequence_length o) (processor o) (w2v_vector_matrix o)
    (w2v_token2idx o) (w2v_top_words o) (embed_model o).

Definition set_embed_model (v : Model) (o : WordEmbedding) : WordEmbedding :=
  mk_WordEmbedding (w2v_path o) (w2v_kwargs o) (w2v_model_loaded o)
    (embedding_size o) (sequence_length o) (processor o) (w2v_vector_matrix o)
    (w2v_token2idx o) (w2v_top_words o) (Some v).

Definition set_processor (v : Processor) (o : WordEmbedding) : WordEmbedding :=
  mk_WordEmbedding (w2v_path o) (w2v_kwargs o) (w2v_model_loaded o)
    (embedding_size o) (sequence_length o) v (w2v_vector_matrix o)
    (w2v_token2idx o) (w2v_top_words o) (embed_model o).

Definition set_token2idx (v : str_dict) (p : Processor) : Processor :=
  mk_Processor (token_pad p) (token_unk p) (token_bos p) (token_eos p)
    v (idx2token p).

Definition set_idx2token (v : int_dict) (p : Processor) : Processor :=
  mk_Processor (token_pad p) (token_unk p) (token_bos p) (token_eos p)
    (token2idx p) v.

(* ===================================================================== *)
(** ** Methods as computations *)
(* ===================================================================== *)

(** A computation runs on a heap and ends with a value or an exception; the
    heap it leaves is the one reached when it ended. *)
Definition M (A : Type) : Type := Heap -> outcome A * Heap.

Definition ret (A : Type) (a : A) : M A := fun h => (Ok a, h).

Definition bind (A B : Type) (c : M A) (f : A -> M B) : M B :=
  fun h =>
    match c h with
    | (Ok a, h') => f a h'
    | (Raise e, h') => (Raise e, h')
    end.

Definition raise (A : Type) (e : Exn) : M A := fun h => (Raise e, h).

Notation "x <- c ;; k" := (bind c (fun x => k))
  (at level 61, c at next level, right associativity).
Notation "c ;; k" := (bind c (fun _ => k))
  (at level 61, right associativity).

(** A value or exception computed without the heap. *)
Definition lift (A : Type) (o : outcome A) : M A := fun h => (o, h).

(** Reading [self]. *)
Definition get_self : M WordEmbedding := fun h => (Ok (self h), h).

(** [self.attr = v] *)
Definition assign (f : WordEmbedding -> WordEmbedding) : M unit :=
  fun h => (Ok tt, {| self := f (self h); world := world h |}).

(** Reading an attribute that may not be set yet. *)
Definition getattr (A : Type) (name : string) (f : WordEmbedding -> option A) : M A :=
  fun h =>
    match f (self h) with
    | Some a => (Ok a, h)
    | None => (Raise (AttributeError name), h)
    end.

(** [KeyedVectors.load_word2vec_format(path, **kwargs)] *)
Definition load_word2vec_format (path : string) (kwargs : Kwargs) : M KeyedVectors :=
  fun h =>
    let w := world h in
    (disk w path kwargs,
     {| self := self h;
        world := {| disk := disk w; load_calls := S (load_calls w);
                    rand_source := rand_source w; rand_pos := rand_pos w |} |}).

(** [np.random.rand(n)]: the next [n] draws. *)
Definition np_random_rand (n : nat) : M vector :=
  fun h =>
    let w := world h in
    (Ok (map (rand_source w) (seq (rand_pos w) n)),
     {| self := self h;
        world := {| disk := disk w; load_calls := load_calls w;
                    rand_source := rand_source w; rand_pos := rand_pos w + n |} |}).

(* ===================================================================== *)
(** ** [_build_token2idx_from_w2v] *)
(* ===================================================================== *)

(** The four reserved tokens of a processor, in index order. *)
Definition reserved (p : Processor) : list string :=
  [token_pad p; token_unk p; token_bos p; token_eos p].

(** The dictionary of lines 66 to 74: the display of the four reserved
    tokens, then one assignment per loaded word. *)
Definition build_token2idx (p : Processor) (w2v : KeyedVectors) : str_dict :=
  let token2idx :=
    PyDict.of_items string_dec
      [(token_pad p, 0); (token_unk p, 1); (token_bos p, 2); (token_eos p, 3)] in
  fold_left
    (fun token2idx token =>
       PyDict.setitem string_dec token2idx token (PyDict.len token2idx))
    (index2word w2v) token2idx.

(** [dict([(value, key) for key, value in d.items()])] *)
Definition invert (d : str_dict) : int_dict :=
  PyDict.of_items Nat.eq_dec (map (fun kv => (snd kv, fst kv)) (PyDict.items d)).

Definition _build_token2idx_from_w2v : M unit :=
  o <- get_self ;;
  w2v <- load_word2vec_format (w2v_path o) (w2v_kwargs o) ;;
  let token2idx := build_token2idx (processor o) w2v in
  let vector_matrix := np_zeros (PyDict.len token2idx) (vector_size w2v) in
  r <- np_random_rand (vector_size w2v) ;;
  vector_matrix <- lift (setitem_row vector_matrix 1 r) ;;
  vector_matrix <- lift (setitem_from vector_matrix 4 (vectors w2v)) ;;
  assign (set_embedding_size (vector_size w2v)) ;;
  assign (set_w2v_vector_matrix vector_matrix) ;;
  assign (set_w2v_token2idx token2idx) ;;
  assign (set_w2v_top_words (firstn 50 (index2entity w2v))) ;;
  assign (set_w2v_model_loaded true) ;;
  d <- getattr "w2v_token2idx" w2v_token2idx ;;
  assign (fun o => set_processor (set_token2idx d (processor o)) o) ;;
  d <- getattr "w2v_token2idx" w2v_token2idx ;;
  assign (fun o => set_processor (set_idx2token (invert d) (processor o)) o).

(* ===================================================================== *)
(** ** [_build_model] and [analyze_corpus] *)
(* ===================================================================== *)

Section Base.

(** The property [token_count] is inherited from the base class [Embedding],
    which is outside this file. *)
Variable token_count : WordEmbedding -> nat.

(** The body of the loop of lines 101 to 113, on the pairs still to visit.
    The arguments of [L.Embedding] are read before the layer is made. *)
Fixpoint build_branches (l : list (nat * dim)) (input_layers output_layers : list Tensor)
  : M (list Tensor * list Tensor) :=
  match l with
  | [] => ret (input_layers, output_layers)
  | (index, seq_len) :: l' =>
      o <- get_self ;;
      let input_tensor := L_Input [seq_len] ("input_" ++ str index)%string in
      weights <- getattr "w2v_vector_matrix" w2v_vector_matrix ;;
      layer_embedding <-
        lift (keras_Embedding (token_count o) (embedding_size o) [weights]
                false ("layer_embedding_" ++ str index)%string) ;;
      embedded_tensor <- lift (call_layer layer_embedding input_tensor) ;;
      build_branches l' (input_layers ++ [input_tensor])
        (output_layers ++ [embedded_tensor])
  end.

Definition _build_model : M unit :=
  o <- get_self ;;
  if token_count o =? 0 then ret tt
  else
    branches <- build_branches (enumerate (sequence_length o)) [] [] ;;
    let input_layers := fst branches in
    let output_layers := snd branches in
    output <-
      (if 1 <? List.length output_layers then
         let layer_concatenate := L_Concatenate "layer_concatenate" in
         t <- lift (call_layer_list layer_concatenate output_layers) ;;
         ret (inl t)
       else ret (inr output_layers)) ;;
    assign (set_embed_model (keras_Model input_layers output)).

(** [utils.wrap_as_tuple] and the base-class [analyze_corpus] are outside
    this file; [X] and [Y] are the values passed as [x] and [y]. *)
Variables X Y : Type.
Variable wrap_as_tuple_x : X -> X.
Variable wrap_as_tuple_y : Y -> Y.
Variable Embedding_analyze_corpus : X -> Y -> M unit.

Definition analyze_corpus (x : X) (y : Y) : M unit :=
  let x := wrap_as_tuple_x x in
  let y := wrap_as_tuple_y y in
  o <- get_self ;;
  (if negb (w2v_model_loaded o) then _build_token2idx_from_w2v else ret tt) ;;
  Embedding_analyze_corpus x y.

(** A sequence of calls on one object; a caller that catches an exception
    goes on with the heap the call left. *)
Fixpoint analyze_corpus_calls (calls : list (X * Y)) (h : Heap) : Heap :=
  match calls with
  | [] => h
  | (x, y) :: calls' => analyze_corpus_calls calls' (snd (analyze_corpus x y h))
  end.

End Base.

(* ===================================================================== *)
(** ** The vocabulary of the statements *)
(* ===================================================================== *)

(** *** Vocabulary construction *)

Definition zeros (c : nat) : vector := repeat 0%float c.

(** The draws [np.random.rand(n)] returns in a world. *)
Definition draw (w : World) (n : nat) : vector :=
  map (rand_source w) (seq (rand_pos w) n).

(** The world after one call of the loader and one draw of [n] numbers. *)
Definition world_after_load (w : World) (n : nat) : World :=
  {| disk := disk w; load_calls := S (load_calls w);
     rand_source := rand_source w; rand_pos := rand_pos w + n |}.

(** The world after one call of the loader. *)
Definition world_after_call (w : World) : World :=
  {| disk := disk w; load_calls := S (load_calls w);
     rand_source := rand_source w; rand_pos := rand_pos w |}.

(** The object after lines 80 to 87, for the dictionary [d] and the matrix
    [m] built before. *)
Definition installed (o : WordEmbedding) (w2v : KeyedVectors)
  (d : str_dict) (m : ndarray) : WordEmbedding :=
  mk_WordEmbedding (w2v_path o) (w2v_kwargs o) true (vector_size w2v)
    (sequence_length o)
    (mk_Processor (token_pad (processor o)) (token_unk (processor o))
       (token_bos (processor o)) (token_eos (processor o)) d (invert d))
    (Some m) (Some d) (Some (firstn 50 (index2entity w2v))) (embed_model o).

(** The loader answers [w2v] for the path and keyword arguments of the
    object. *)
Definition loads (h : Heap) (w2v : KeyedVectors) : Prop :=
  disk (world h) (w2v_path (self h)) (w2v_kwargs (self h)) = Ok w2v.

Definition loaded_dict (p : Processor) (w2v : KeyedVectors) : str_dict :=
  combine (reserved p ++ index2word w2v)
    (seq 0 (4 + List.length (index2word w2v))).

Definition loaded_matrix (w : World) (w2v : KeyedVectors) : ndarray :=
  let c := vector_size w2v in
  {| shape := (4 + List.length (index2word w2v), c);
     rows := [zeros c; draw w c; zeros c; zeros c] ++ rows (vectors w2v) |}.

(** Every entry of each of the rows 0 to 3 is zero. *)
Definition reserved_rows_zero (m : ndarray) : Prop :=
  forall i r x, i < 4 -> nth_error (rows m) i = Some r -> In x r ->
    x = 0%float.

(** *** Graph construction *)

(** The placeholder, the embedding layer and the branch output that one
    turn of the loop makes for the pair [(index, seq_len)]. *)
Definition input_of (ix : nat * dim) : Tensor :=
  L_Input [snd ix] ("input_" ++ str (fst ix))%string.

Definition embedding_of (input_dim output_dim : nat) (m : ndarray)
  (ix : nat * dim) : Layer :=
  L_Embedding input_dim output_dim [m] false
    ("layer_embedding_" ++ str (fst ix))%string.

Definition branch_of (input_dim output_dim : nat) (m : ndarray)
  (ix : nat * dim) : Tensor :=
  Call (embedding_of input_dim output_dim m ix) (input_of ix).

(** keras takes [m] as the weights of an embedding layer of these
    dimensions: both are positive and are the shape of [m]. *)
Definition embedding_fits (input_dim output_dim : nat) (m : ndarray) : bool :=
  (0 <? input_dim) && (0 <? output_dim)
  && shape_eqb (shape m) (input_dim, output_dim).

(** No two configured lengths are different fixed lengths. *)
Fixpoint lengths_agree (l : list dim) : bool :=
  match l with
  | [] => true
  | d :: l' => forallb (dim_compatible d) l' && lengths_agree l'
  end.

(** The model [_build_model] stores for the matrix [m]. *)
Definition built_model (token_count : WordEmbedding -> nat)
  (o : WordEmbedding) (m : ndarray) : Model :=
  let branches :=
    map (branch_of (token_count o) (embedding_size o) m)
      (enumerate (sequence_length o)) in
  keras_Model (map input_of (enumerate (sequence_length o)))
    (if 1 <? List.length branches then
       inl (CallList (L_Concatenate "layer_concatenate") branches)
     else inr branches).

(** *** Loading once *)

(** What a method leaves alone when it neither loads the table nor writes
    the attributes the loading sets. *)
Definition keeps_w2v (h h' : Heap) : Prop :=
  w2v_model_loaded (self h') = w2v_model_loaded (self h)
  /\ embedding_size (self h') = embedding_size (self h)
  /\ w2v_vector_matrix (self h') = w2v_vector_matrix (self h)
  /\ w2v_token2idx (self h') = w2v_token2idx (self h)
  /\ load_calls (world h') = load_calls (world h).

(* ===================================================================== *)
(** ** A sample object *)
(* ===================================================================== *)

(** The object of the script at the end of the file: two sequence lengths,
    12 and 20, and the sample table; here the table has two words with
    vectors of three entries, and every draw of the random generator is
    0.5. *)

Definition sample_processor : Processor :=
  mk_Processor "[PAD]" "[UNK]" "[BOS]" "[EOS]" [] [].

Definition sample_w2v : KeyedVectors :=
  {| index2word := ["the"; "of"];
     index2entity := ["the"; "of"];
     vectors := {| shape := (2, 3);
                   rows := [[0.25; -1.5; 2]; [4; 0.125; -0.5]]%float |};
     vector_size := 3 |}.

(** A table whose first word is the reserved pad token. *)
Definition clash_w2v : KeyedVectors :=
  {| index2word := ["[PAD]"; "of"];
     index2entity := ["[PAD]"; "of"];
     vectors := {| shape := (2, 3);
                   rows := [[0.25; -1.5; 2]; [4; 0.125; -0.5]]%float |};
     vector_size := 3 |}.

Definition sample_self : WordEmbedding :=
  {| w2v_path := "tests/test-data/sample_w2v.txt";
     w2v_kwargs := [];
     w2v_model_loaded := false;
     embedding_size := 0;
     sequence_length := [Some 12; Some 20];
     processor := sample_processor;
     w2v_vector_matrix := None;
     w2v_token2idx := None;
     w2v_top_words := None;
     embed_model := None |}.

Definition sample_world (w2v : outcome KeyedVectors) : World :=
  {| disk := fun _ _ => w2v;
     load_calls := 0;
     rand_source := fun _ => 0.5%float;
     rand_pos := 0 |}.

Definition sample_heap : Heap :=
  {| self := sample_self; world := sample_world (Ok sample_w2v) |}.

Definition clash_heap : Heap :=
  {| self := sample_self; world := sample_world (Ok clash_w2v) |}.

Definition missing_heap : Heap :=
  {| self := sample_self;
     world := sample_world (Raise (LibraryError "No such file or directory")) |}.

(** The token count of the sample object: the size of the processor's
    vocabulary. *)
Definition sample_token_count (o : WordEmbedding) : nat :=
  PyDict.len (token2idx (processor o)).

(** The sample object once its table is loaded. *)
Definition sample_loaded_heap : Heap :=
  snd (_build_token2idx_from_w2v sample_heap).

Definition sample_matrix : ndarray :=
  loaded_matrix (world sample_heap) sample_w2v.

(* ===================================================================== *)
(** ** The constructor *)
(* ===================================================================== *)

(** The argument [sequence_length]: a string ([auto], [variable]), an
    integer or a tuple of integers. *)
Inductive SeqLenArg : Type :=
| SeqLenStr (s : string)
| SeqLenInt (n : nat)
| SeqLenTuple (l : list nat).

Definition set_w2v_path (v : string) (o : WordEmbedding) : WordEmbedding :=
  mk_WordEmbedding v (w2v_kwargs o) (w2v_model_loaded o)
    (embedding_size o) (sequence_length o) (processor o) (w2v_vector_matrix o)
    (w2v_token2idx o) (w2v_top_words o) (embed_model o).

Definition set_w2v_kwargs (v : Kwargs) (o : WordEmbedding) : WordEmbedding :=
  mk_WordEmbedding (w2v_path o) v (w2v_model_loaded o)
    (embedding_size o) (sequence_length o) (processor o) (w2v_vector_matrix o)
    (w2v_token2idx o) (w2v_top_words o) (embed_model o).

Section Constructor.

(** The task type, the base-class constructor and the property
    [token_count] are outside this file. The base-class constructor is
    called with [task], [sequence_length], [embedding_size] and
    [processor]. *)
Variable Task : Type.
Variable Embedding_init :
  option Task -> SeqLenArg -> nat -> option Processor -> M unit.
Variable token_count : WordEmbedding -> nat.

(** [WordEmbedding.__init__]; [None] is the default of [task], [w2v_kwargs]
    and [processor], and a processor object is true in the test of line
    59. *)
Definition __init__ (w2v_path : string) (task : option Task)
  (w2v_kwargs : option Kwargs) (sequence_length : SeqLenArg)
  (processor : option Processor) : M unit :=
  let w2v_kwargs :=
    match w2v_kwargs with None => [] | Some kwargs => kwargs end in
  assign (set_w2v_path w2v_path) ;;
  assign (set_w2v_kwargs w2v_kwargs) ;;
  assign (set_w2v_model_loaded false) ;;
  Embedding_init task sequence_length 0 processor ;;
  match processor with
  | Some _ => _build_token2idx_from_w2v ;; _build_model token_count
  | None => ret tt
  end.

End Constructor.

(* ===================================================================== *)
(** ** More vocabulary of the statements *)
(* ===================================================================== *)

(** The names keras sees in a model: those of the placeholders and those of
    the layers. *)
Definition layer_name (l : Layer) : string :=
  match l with
  | L_Embedding _ _ _ _ name => name
  | L_Concatenate name => name
  end.

Definition placeholder_name (t : Tensor) : string :=
  match t with
  | L_Input _ name => name
  | Call l _ => layer_name l
  | CallList l _ => layer_name l
  end.

Definition model_names (m : Model) : list string :=
  map placeholder_name (model_placeholders m) ++ map layer_name (model_layers m).

(** What the base-class constructor leaves alone when it neither loads the
    table nor writes the three attributes set before it is called. *)
Definition keeps_init (h h' : Heap) : Prop :=
  w2v_path (self h') = w2v_path (self h)
  /\ w2v_kwargs (self h') = w2v_kwargs (self h)
  /\ w2v_model_loaded (self h') = w2v_model_loaded (self h)
  /\ world h' = world h.

(** A table with the single word [t]. *)
Definition single_word_w2v (t : string) : KeyedVectors :=
  {| index2word := [t];
     index2entity := [t];
     vectors := {| shape := (1, 3); rows := [[0.25; -1.5; 2]]%float |};
     vector_size := 3 |}.

Definition single_word_heap (t : string) : Heap :=
  {| self := sample_self; world := sample_world (Ok (single_word_w2v t)) |}.

(** A base-class constructor that stores the sequence lengths, the
    embedding size and the processor, a given one or an empty one. *)
Definition sample_Embedding_init (task : option unit) (s : SeqLenArg)
  (size : nat) (p : option Processor) : M unit :=
  assign (fun o =>
    mk_WordEmbedding (w2v_path o) (w2v_kwargs o) (w2v_model_loaded o) size
      (match s with
       | SeqLenTuple l => map Some l
       | SeqLenInt n => [Some n]
       | SeqLenStr _ => [None]
       end)
      (match p with Some p => p | None => sample_processor end)
      (w2v_vector_matrix o) (w2v_token2idx o) (w2v_top_words o)
      (embed_model o)).

(** The loaded sample object with the two sequence lengths set to 20. *)
Definition agreeing_heap : Heap :=
  {| self :=
       mk_WordEmbedding (w2v_path (self sample_loaded_heap))
         (w2v_kwargs (self sample_loaded_heap))
         (w2v_model_loaded (self sample_loaded_heap))
         (embedding_size (self sample_loaded_heap))
         [Some 20; Some 20]
         (processor (self sample_loaded_heap))
         (w2v_vector_matrix (self sample_loaded_heap))
         (w2v_token2idx (self sample_loaded_heap))
         (w2v_top_words (self sample_loaded_heap))
         (embed_model (self sample_loaded_heap));
     world := world sample_loaded_heap |}.

(** The heap after lines 49 to 53, on which the base-class constructor is
    called. *)
Definition init_heap (path : string) (kwargs : option Kwargs) (h : Heap) : Heap :=
  {| self :=
       set_w2v_model_loaded false
         (set_w2v_kwargs (match kwargs with None => [] | Some k => k end)
            (set_w2v_path path (self h)));
     world := world h |}.

(* ===================================================================== *)
(** ** Facts on dictionaries *)
(* ===================================================================== *)

Section DictFacts.

Variables K V : Type.
Variable eq_dec : forall x y : K, {x = y} + {x <> y}.

Lemma keys_app (d1 d2 : PyDict.t K V) :
  PyDict.keys (d1 ++ d2) = PyDict.keys d1 ++ PyDict.keys d2.
Proof. unfold PyDict.keys. apply map_app. Qed.

(** Assigning to a key that is not there appends the item. *)
Lemma setitem_fresh (d : PyDict.t K V) k v :
  ~ In k (PyDict.keys d) -> PyDict.setitem eq_dec d k v = d ++ [(k, v)].
Proof.
  induction d as [|[k' v'] d IH]; simpl; intros Hk.
  - reflexivity.
  - destruct (eq_dec k k') as [->|Hne].
    + exfalso. apply Hk. now left.
    + rewrite IH; [reflexivity|]. intros Hin. apply Hk. now right.
Qed.

(** Assignment never shortens a dictionary. *)
Lemma setitem_len_le (d : PyDict.t K V) k v :
  PyDict.len d <= PyDict.len (PyDict.setitem eq_dec d k v).
Proof.
  unfold PyDict.len.
  induction d as [|[k' v'] d IH]; simpl.
  - lia.
  - destruct (eq_dec k k'); simpl; lia.
Qed.

(** Inserting items with new, pairwise different keys appends them. *)
Lemma insert_items_fresh (l : list (K * V)) : forall d : PyDict.t K V,
  NoDup (PyDict.keys d ++ map fst l) ->
  fold_left (fun d kv => PyDict.setitem eq_dec d (fst kv) (snd kv)) l d = d ++ l.
Proof.
  induction l as [|[k v] l IH]; intros d Hnd; simpl.
  - now rewrite app_nil_r.
  - simpl in Hnd.
    assert (Hk : ~ In k (PyDict.keys d)).
    { apply NoDup_remove_2 in Hnd. intros Hin. apply Hnd.
      apply in_or_app. now left. }
    rewrite setitem_fresh by exact Hk.
    rewrite IH.
    + now rewrite <- app_assoc.
    + rewrite keys_app. simpl. rewrite <- app_assoc. exact Hnd.
Qed.

Lemma of_items_fresh (l : list (K * V)) :
  NoDup (map fst l) -> PyDict.of_items eq_dec l = l.
Proof.
  intros Hnd. unfold PyDict.of_items, PyDict.empty.
  now rewrite insert_items_fresh.
Qed.

(** With unique keys an item is found under its key. *)
Lemma get_of_In (d : PyDict.t K V) k v :
  NoDup (PyDict.keys d) -> In (k, v) d -> PyDict.get eq_dec d k = Some v.
Proof.
  induction d as [|[k' v'] d IH]; simpl; intros Hnd Hin.
  - contradiction.
  - inversion Hnd as [|? ? Hk' Hnd']; subst.
    destruct Hin as [Heq|Hin].
    + inversion Heq; subst. destruct (eq_dec k k); congruence.
    + destruct (eq_dec k k') as [->|Hne].
      * exfalso. apply Hk'. unfold PyDict.keys.
        change k' with (fst (k', v)). now apply in_map.
      * now apply IH.
Qed.

Lemma get_In (d : PyDict.t K V) k v :
  PyDict.get eq_dec d k = Some v -> In (k, v) d.
Proof.
  induction d as [|[k' v'] d IH]; simpl; intros H.
  - discriminate.
  - destruct (eq_dec k k') as [->|Hne].
    + inversion H; subst. now left.
    + right. now apply IH.
Qed.

End DictFacts.

(** *** The boolean tests on token lists *)

Lemma existsb_eqb_false x l :
  existsb (String.eqb x) l = false -> ~ In x l.
Proof.
  intros H Hin.
  assert (Ht : existsb (String.eqb x) l = true).
  { apply existsb_exists. exists x. split; [exact Hin|apply String.eqb_refl]. }
  congruence.
Qed.

Lemma distinct_NoDup l : distinct l = true -> NoDup l.
Proof.
  induction l as [|x l IH]; simpl; intros H.
  - constructor.
  - apply andb_true_iff in H. destruct H as [Hx Hl].
    apply negb_true_iff in Hx.
    constructor; [now apply existsb_eqb_false|now apply IH].
Qed.

Lemma disjoint_spec l1 l2 :
  disjoint l1 l2 = true -> forall x, In x l1 -> ~ In x l2.
Proof.
  unfold disjoint. intros H x Hx.
  rewrite forallb_forall in H. specialize (H x Hx).
  apply negb_true_iff in H. now apply existsb_eqb_false.
Qed.

(** *** The token dictionary *)

(** Assigning the next index to new, pairwise different words appends them
    with consecutive indices. *)
Lemma index_words_fresh (ws : list string) : forall d : str_dict,
  NoDup ws ->
  (forall w, In w ws -> ~ In w (PyDict.keys d)) ->
  fold_left
    (fun token2idx token =>
       PyDict.setitem string_dec token2idx token (PyDict.len token2idx)) ws d
  = d ++ combine ws (seq (List.length d) (List.length ws)).
Proof.
  induction ws as [|w ws IH]; intros d Hnd Hfresh; simpl.
  - now rewrite app_nil_r.
  - inversion Hnd as [|? ? Hw Hnd']; subst.
    rewrite setitem_fresh by (apply Hfresh; now left).
    rewrite IH.
    + rewrite <- app_assoc. simpl. unfold PyDict.len.
      rewrite length_app. simpl.
      now replace (List.length d + 1) with (S (List.length d)) by lia.
    + exact Hnd'.
    + intros w' Hw' Hin. rewrite keys_app in Hin. simpl in Hin.
      apply in_app_or in Hin. destruct Hin as [Hin|[Heq|[]]].
      * apply (Hfresh w'); [now right|exact Hin].
      * subst. contradiction.
Qed.

(** With four different reserved tokens and a loaded vocabulary without
    repetition that holds none of them, the dictionary lists the reserved
    tokens and then the loaded words, numbered from 0. *)
Lemma build_token2idx_fresh (p : Processor) (w2v : KeyedVectors) :
  distinct (reserved p) = true ->
  distinct (index2word w2v) = true ->
  disjoint (index2word w2v) (reserved p) = true ->
  build_token2idx p w2v
  = combine (reserved p ++ index2word w2v)
      (seq 0 (4 + List.length (index2word w2v))).
Proof.
  intros Hres Hws Hdis. unfold build_token2idx.
  rewrite of_items_fresh by (apply distinct_NoDup in Hres; exact Hres).
  rewrite index_words_fresh.
  - reflexivity.
  - now apply distinct_NoDup.
  - intros w Hw. apply (disjoint_spec _ _ Hdis w Hw).
Qed.

(* ===================================================================== *)
(** ** Facts on arrays *)
(* ===================================================================== *)

Lemma broadcast_vector_same (v : vector) :
  broadcast_vector v (List.length v) = Some v.
Proof. unfold broadcast_vector. now rewrite Nat.eqb_refl. Qed.

(** Writing row 1 of a zero matrix of at least four rows. *)
Lemma setitem_row_zeros (n c : nat) (r : vector) :
  List.length r = c ->
  setitem_row (np_zeros (4 + n) c) 1 r
  = Ok {| shape := (4 + n, c);
          rows := [zeros c; r; zeros c; zeros c] ++ repeat (zeros c) n |}.
Proof.
  intros Hr. unfold setitem_row. cbn [np_zeros shape rows fst snd].
  replace (1 <? 4 + n) with true by (symmetry; apply Nat.ltb_lt; lia).
  subst c. rewrite broadcast_vector_same. reflexivity.
Qed.

(** Broadcasting an array to its own shape gives its rows. *)
Lemma broadcast_ndarray_same (src : ndarray) :
  broadcast_ndarray src (fst (shape src)) (snd (shape src)) = Some (rows src).
Proof.
  unfold broadcast_ndarray. rewrite !Nat.eqb_refl. simpl.
  now rewrite map_id.
Qed.

(** Every row of a broadcast array of the right width is a row of the
    source. *)
Lemma broadcast_ndarray_rows (src : ndarray) (k c : nat) (rs : list vector) :
  ndarray_ok src = true ->
  snd (shape src) = c ->
  broadcast_ndarray src k c = Some rs ->
  Forall (fun r => In r (rows src)) rs
  /\ (fst (shape src) = k -> rs = rows src).
Proof.
  intros Hok Hc. unfold broadcast_ndarray. rewrite Hc, Nat.eqb_refl.
  destruct ((fst (shape src) =? k) || (fst (shape src) =? 1)) eqn:Hn;
    simpl; [|discriminate].
  intros H. inversion H; subst rs; clear H. rewrite map_id.
  destruct (fst (shape src) =? k) eqn:Hk.
  - split; [|reflexivity]. apply Forall_forall. now intros r Hr.
  - simpl in Hn. apply Nat.eqb_eq in Hn. apply Nat.eqb_neq in Hk.
    split; [|intros; contradiction].
    unfold ndarray_ok in Hok. apply andb_true_iff in Hok.
    destruct Hok as [Hlen _]. apply Nat.eqb_eq in Hlen. rewrite Hn in Hlen.
    destruct (rows src) as [|r0 rs0]; [discriminate|].
    apply Forall_forall. intros r Hr. apply repeat_spec in Hr. subst. now left.
Qed.

(* ===================================================================== *)
(** ** Running [_build_token2idx_from_w2v] *)
(* ===================================================================== *)

Lemma draw_length w n : List.length (draw w n) = n.
Proof. unfold draw. now rewrite length_map, length_seq. Qed.

Ltac run_monad :=
  unfold _build_token2idx_from_w2v, bind, get_self, load_word2vec_format,
    np_random_rand, lift, assign, getattr, ret; cbn [self world].

(** The loader raises: the exception is passed on, the object is as before. *)
Lemma run_load_raises (h : Heap) (e : Exn) :
  disk (world h) (w2v_path (self h)) (w2v_kwargs (self h)) = Raise e ->
  _build_token2idx_from_w2v h
  = (Raise e, {| self := self h; world := world_after_call (world h) |}).
Proof. intros Hd. run_monad. rewrite Hd. reflexivity. Qed.

(** The loader returns: the call ends as the two array assignments do. *)
Lemma run_loaded (h : Heap) (w2v : KeyedVectors) :
  disk (world h) (w2v_path (self h)) (w2v_kwargs (self h)) = Ok w2v ->
  let d := build_token2idx (processor (self h)) w2v in
  let w' := world_after_load (world h) (vector_size w2v) in
  _build_token2idx_from_w2v h
  = match setitem_row (np_zeros (PyDict.len d) (vector_size w2v)) 1
            (draw (world h) (vector_size w2v)) with
    | Raise e => (Raise e, {| self := self h; world := w' |})
    | Ok m1 =>
        match setitem_from m1 4 (vectors w2v) with
        | Raise e => (Raise e, {| self := self h; world := w' |})
        | Ok m2 => (Ok tt, {| self := installed (self h) w2v d m2; world := w' |})
        end
    end.
Proof.
  intros Hd d w'. run_monad. rewrite Hd. cbn [disk load_calls rand_source rand_pos].
  fold (draw (world h) (vector_size w2v)). fold d.
  destruct (setitem_row _ 1 _) as [m1|e]; [|reflexivity].
  destruct (setitem_from m1 4 _) as [m2|e]; reflexivity.
Qed.

(** *** The run on a vocabulary without reserved tokens *)

Lemma KeyedVectors_ok_inv (w2v : KeyedVectors) :
  KeyedVectors_ok w2v = true ->
  distinct (index2word w2v) = true
  /\ ndarray_ok (vectors w2v) = true
  /\ fst (shape (vectors w2v)) = List.length (index2word w2v)
  /\ snd (shape (vectors w2v)) = vector_size w2v.
Proof.
  unfold KeyedVectors_ok. rewrite !andb_true_iff, !Nat.eqb_eq. tauto.
Qed.

Lemma loaded_dict_len p w2v :
  PyDict.len (loaded_dict p w2v) = 4 + List.length (index2word w2v).
Proof.
  unfold PyDict.len, loaded_dict.
  rewrite length_combine, length_app, length_seq. simpl. lia.
Qed.

Lemma run_fresh (h : Heap) (w2v : KeyedVectors) :
  loads h w2v ->
  KeyedVectors_ok w2v = true ->
  distinct (reserved (processor (self h))) = true ->
  disjoint (index2word w2v) (reserved (processor (self h))) = true ->
  _build_token2idx_from_w2v h
  = (Ok tt,
     {| self := installed (self h) w2v
                  (loaded_dict (processor (self h)) w2v)
                  (loaded_matrix (world h) w2v);
        world := world_after_load (world h) (vector_size w2v) |}).
Proof.
  intros Hl Hok Hres Hdis.
  destruct (KeyedVectors_ok_inv _ Hok) as (Hws & Harr & Hn & Hc).
  rewrite (run_loaded h Hl).
  rewrite (build_token2idx_fresh _ _ Hres Hws Hdis).
  fold (loaded_dict (processor (self h)) w2v).
  rewrite loaded_dict_len.
  rewrite setitem_row_zeros by apply draw_length.
  assert (Hb : broadcast_ndarray (vectors w2v)
                 (List.length (index2word w2v)) (vector_size w2v)
               = Some (rows (vectors w2v))).
  { rewrite <- Hn, <- Hc. apply broadcast_ndarray_same. }
  unfold setitem_from. cbn [shape rows fst snd].
  replace (4 + List.length (index2word w2v) - 4)
    with (List.length (index2word w2v)) by lia.
  rewrite Hb. reflexivity.
Qed.

(** *** Looking up the loaded dictionary *)

Lemma keys_combine (A B : Type) (l : list A) : forall l' : list B,
  List.length l <= List.length l' -> map fst (combine l l') = l.
Proof.
  induction l as [|x l IH]; intros [|y l'] H; simpl in *;
    try reflexivity; try lia.
  f_equal. apply IH. lia.
Qed.

Lemma values_combine (A B : Type) (l : list A) : forall l' : list B,
  List.length l' <= List.length l -> map snd (combine l l') = l'.
Proof.
  induction l as [|x l IH]; intros [|y l'] H; simpl in *;
    try reflexivity; try lia.
  f_equal. apply IH. lia.
Qed.

(** In a list numbered from [s], the element at position [j] is found under
    [s + j]. *)
Lemma get_numbered (l : list string) : forall s m j x,
  NoDup l -> List.length l <= m -> nth_error l j = Some x ->
  PyDict.get string_dec (combine l (seq s m)) x = Some (s + j).
Proof.
  induction l as [|y l IH]; intros s m j x Hnd Hm Hj.
  - destruct j; discriminate.
  - destruct m as [|m]; [simpl in Hm; lia|].
    inversion Hnd as [|? ? Hy Hnd']; subst. simpl.
    destruct j as [|j]; simpl in Hj.
    + inversion Hj; subst. destruct (string_dec x x); [|congruence].
      f_equal. lia.
    + destruct (string_dec x y) as [->|Hne].
      * exfalso. apply Hy. eapply nth_error_In; eauto.
      * rewrite (IH (S s) m j x Hnd'); [f_equal; lia| simpl in Hm; lia|exact Hj].
Qed.

Lemma NoDup_reserved_words (p : Processor) (w2v : KeyedVectors) :
  distinct (reserved p) = true ->
  distinct (index2word w2v) = true ->
  disjoint (index2word w2v) (reserved p) = true ->
  NoDup (reserved p ++ index2word w2v).
Proof.
  intros Hres Hws Hdis. apply NoDup_app.
  - now apply distinct_NoDup.
  - now apply distinct_NoDup.
  - intros x Hx Hw. exact (disjoint_spec _ _ Hdis x Hw Hx).
Qed.

Lemma loaded_dict_get (p : Processor) (w2v : KeyedVectors) j x :
  distinct (reserved p) = true ->
  distinct (index2word w2v) = true ->
  disjoint (index2word w2v) (reserved p) = true ->
  nth_error (reserved p ++ index2word w2v) j = Some x ->
  PyDict.get string_dec (loaded_dict p w2v) x = Some j.
Proof.
  intros Hres Hws Hdis Hj. unfold loaded_dict.
  change (Some j) with (Some (0 + j)). apply get_numbered.
  - now apply NoDup_reserved_words.
  - rewrite length_app. simpl. lia.
  - exact Hj.
Qed.

Lemma loaded_dict_keys p w2v :
  PyDict.keys (loaded_dict p w2v) = reserved p ++ index2word w2v.
Proof.
  unfold PyDict.keys, loaded_dict. apply keys_combine.
  rewrite length_app, length_seq. simpl. lia.
Qed.

Lemma loaded_dict_values p w2v :
  PyDict.values (loaded_dict p w2v)
  = seq 0 (4 + List.length (index2word w2v)).
Proof.
  unfold PyDict.values, loaded_dict. apply values_combine.
  rewrite length_app, length_seq. simpl. lia.
Qed.

(** Inverting a dictionary with pairwise different values swaps its items. *)
Lemma invert_injective (d : str_dict) :
  NoDup (PyDict.values d) ->
  invert d = map (fun kv => (snd kv, fst kv)) d.
Proof.
  intros Hnd. unfold invert, PyDict.items. apply of_items_fresh.
  rewrite map_map. simpl. exact Hnd.
Qed.

Lemma invert_get (d : str_dict) t i :
  NoDup (PyDict.keys d) -> NoDup (PyDict.values d) ->
  (PyDict.get string_dec d t = Some i
   <-> PyDict.get Nat.eq_dec (invert d) i = Some t).
Proof.
  intros Hk Hv. rewrite (invert_injective _ Hv). split; intros H.
  - apply get_of_In.
    + unfold PyDict.keys. rewrite map_map. simpl. exact Hv.
    + apply get_In in H. apply in_map_iff. exists (t, i). now split.
  - apply get_In in H. apply in_map_iff in H. destruct H as [[t' i'] [Heq Hin]].
    simpl in Heq. inversion Heq; subst. now apply get_of_In.
Qed.

(** Without any assumption on the vocabulary the dictionary keeps at least
    the four reserved entries. *)
Lemma index_words_len_le (ws : list string) : forall d : str_dict,
  PyDict.len d
  <= PyDict.len
       (fold_left
          (fun token2idx token =>
             PyDict.setitem string_dec token2idx token (PyDict.len token2idx))
          ws d).
Proof.
  induction ws as [|w ws IH]; intros d; simpl.
  - lia.
  - etransitivity; [|apply IH]. apply setitem_len_le.
Qed.

Lemma build_token2idx_len_ge (p : Processor) (w2v : KeyedVectors) :
  distinct (reserved p) = true ->
  4 <= PyDict.len (build_token2idx p w2v).
Proof.
  intros Hres. unfold build_token2idx.
  etransitivity; [|apply index_words_len_le].
  rewrite of_items_fresh by (apply distinct_NoDup in Hres; exact Hres).
  unfold PyDict.len. simpl. lia.
Qed.

(* ===================================================================== *)
(** ** Vocabulary construction *)
(* ===================================================================== *)

(** C1. After [_build_token2idx_from_w2v] has run on a loaded table that
    holds none of the four (different) reserved tokens, the constructed
    [token2idx] maps the pad token to 0, the unknown token to 1, the
    begin-of-sequence token to 2 and the end-of-sequence token to 3, and the
    loaded words to 4, 5, ... in the order of the loader. *)
Theorem token2idx_reserved_then_words (h : Heap) (w2v : KeyedVectors) :
  loads h w2v ->
  KeyedVectors_ok w2v = true ->
  distinct (reserved (processor (self h))) = true ->
  disjoint (index2word w2v) (reserved (processor (self h))) = true ->
  let p := processor (self h) in
  let r := _build_token2idx_from_w2v h in
  fst r = Ok tt
  /\ exists d : str_dict,
       w2v_token2idx (self (snd r)) = Some d
       /\ d = build_token2idx p w2v
       /\ PyDict.get string_dec d (token_pad p) = Some 0
       /\ PyDict.get string_dec d (token_unk p) = Some 1
       /\ PyDict.get string_dec d (token_bos p) = Some 2
       /\ PyDict.get string_dec d (token_eos p) = Some 3
       /\ (forall i tok, nth_error (index2word w2v) i = Some tok ->
             PyDict.get string_dec d tok = Some (4 + i))
       /\ PyDict.items d
          = combine (reserved p ++ index2word w2v)
              (seq 0 (4 + List.length (index2word w2v))).
Proof.
  intros Hl Hok Hres Hdis p r.
  destruct (KeyedVectors_ok_inv _ Hok) as (Hws & _).
  subst r. rewrite (run_fresh Hl Hok Hres Hdis). cbn [fst snd self].
  split; [reflexivity|].
  exists (loaded_dict p w2v). cbn [installed w2v_token2idx].
  split; [reflexivity|].
  split; [symmetry; now apply build_token2idx_fresh|].
  repeat split; try (apply loaded_dict_get; trivial; reflexivity).
  intros i tok Hi. apply loaded_dict_get; trivial.
Qed.

Lemma token2idx_reserved_then_words_witness :
  let p := sample_processor in
  let r := _build_token2idx_from_w2v sample_heap in
  fst r = Ok tt
  /\ exists d : str_dict,
       w2v_token2idx (self (snd r)) = Some d
       /\ d = build_token2idx p sample_w2v
       /\ PyDict.get string_dec d (token_pad p) = Some 0
       /\ PyDict.get string_dec d (token_unk p) = Some 1
       /\ PyDict.get string_dec d (token_bos p) = Some 2
       /\ PyDict.get string_dec d (token_eos p) = Some 3
       /\ (forall i tok, nth_error (index2word sample_w2v) i = Some tok ->
             PyDict.get string_dec d tok = Some (4 + i))
       /\ PyDict.items d
          = combine (reserved p ++ index2word sample_w2v)
              (seq 0 (4 + List.length (index2word sample_w2v))).
Proof.
  apply (@token2idx_reserved_then_words sample_heap sample_w2v); reflexivity.
Defined.

(** C2. After [_build_token2idx_from_w2v] has run on a loaded table that
    holds none of the four reserved tokens, rows 4 onward of
    [w2v_vector_matrix] are exactly the loaded vectors in loader order, and
    for every loaded token the row [token2idx[token]] of the matrix is that
    token's loaded vector. *)
Theorem vector_rows_follow_token2idx (h : Heap) (w2v : KeyedVectors) :
  loads h w2v ->
  KeyedVectors_ok w2v = true ->
  distinct (reserved (processor (self h))) = true ->
  disjoint (index2word w2v) (reserved (processor (self h))) = true ->
  let r := _build_token2idx_from_w2v h in
  fst r = Ok tt
  /\ exists (d : str_dict) (m : ndarray),
       w2v_token2idx (self (snd r)) = Some d
       /\ w2v_vector_matrix (self (snd r)) = Some m
       /\ skipn 4 (rows m) = rows (vectors w2v)
       /\ (forall i tok, nth_error (index2word w2v) i = Some tok ->
             exists j v,
               PyDict.get string_dec d tok = Some j
               /\ nth_error (rows (vectors w2v)) i = Some v
               /\ nth_error (rows m) j = Some v).
Proof.
  intros Hl Hok Hres Hdis r.
  destruct (KeyedVectors_ok_inv _ Hok) as (Hws & Harr & Hn & _).
  subst r. rewrite (run_fresh Hl Hok Hres Hdis). cbn [fst snd self].
  split; [reflexivity|].
  exists (loaded_dict (processor (self h)) w2v), (loaded_matrix (world h) w2v).
  cbn [installed w2v_token2idx w2v_vector_matrix].
  repeat split.
  intros i tok Hi.
  assert (Hlt : i < List.length (rows (vectors w2v))).
  { unfold ndarray_ok in Harr. apply andb_true_iff in Harr.
    destruct Harr as [Hlen _]. apply Nat.eqb_eq in Hlen.
    rewrite Hlen, Hn. apply nth_error_Some. congruence. }
  destruct (nth_error (rows (vectors w2v)) i) as [v|] eqn:Hv.
  - exists (4 + i), v. repeat split.
    + apply loaded_dict_get; trivial.
    + exact Hv.
  - apply nth_error_None in Hv. lia.
Qed.

Lemma vector_rows_follow_token2idx_witness :
  let r := _build_token2idx_from_w2v sample_heap in
  fst r = Ok tt
  /\ exists (d : str_dict) (m : ndarray),
       w2v_token2idx (self (snd r)) = Some d
       /\ w2v_vector_matrix (self (snd r)) = Some m
       /\ skipn 4 (rows m) = rows (vectors sample_w2v)
       /\ (forall i tok, nth_error (index2word sample_w2v) i = Some tok ->
             exists j v,
               PyDict.get string_dec d tok = Some j
               /\ nth_error (rows (vectors sample_w2v)) i = Some v
               /\ nth_error (rows m) j = Some v).
Proof.
  apply (@vector_rows_follow_token2idx sample_heap sample_w2v); reflexivity.
Defined.

(** On the sample object row 1 of the built matrix holds the draws, which
    are not zero. *)
Lemma reserved_rows_not_all_zero :
  exists m : ndarray,
    w2v_vector_matrix (self (snd (_build_token2idx_from_w2v sample_heap)))
    = Some m
    /\ ~ reserved_rows_zero m.
Proof.
  eexists. split; [vm_compute; reflexivity|].
  intros H.
  specialize (H 1 [0.5; 0.5; 0.5]%float 0.5%float).
  assert (Heq : 0.5%float = 0%float).
  { apply H; [lia|reflexivity|now left]. }
  apply (f_equal (fun x => PrimFloat.eqb x 0%float)) in Heq.
  vm_compute in Heq. discriminate.
Qed.

(** C3, amended. The matrix built by [_build_token2idx_from_w2v] is
    zero-initialized with the loaded vectors after the reserved rows: rows
    0, 2 and 3 are zero, row 1 (the unknown token) holds the numbers drawn by
    [np.random.rand], and only rows from index 4 onward hold loaded
    vectors. *)
Theorem reserved_rows_layout (h : Heap) (w2v : KeyedVectors) :
  loads h w2v ->
  KeyedVectors_ok w2v = true ->
  distinct (reserved (processor (self h))) = true ->
  fst (_build_token2idx_from_w2v h) = Ok tt ->
  exists m : ndarray,
    w2v_vector_matrix (self (snd (_build_token2idx_from_w2v h))) = Some m
    /\ nth_error (rows m) 0 = Some (zeros (vector_size w2v))
    /\ nth_error (rows m) 1 = Some (draw (world h) (vector_size w2v))
    /\ nth_error (rows m) 2 = Some (zeros (vector_size w2v))
    /\ nth_error (rows m) 3 = Some (zeros (vector_size w2v))
    /\ Forall (fun r => In r (rows (vectors w2v))) (skipn 4 (rows m)).
Proof.
  intros Hl Hok Hres.
  destruct (KeyedVectors_ok_inv _ Hok) as (_ & Harr & _ & Hc).
  rewrite (run_loaded h Hl).
  pose proof (build_token2idx_len_ge (processor (self h)) w2v Hres) as Hlen.
  replace (PyDict.len (build_token2idx (processor (self h)) w2v))
    with (4 + (PyDict.len (build_token2idx (processor (self h)) w2v) - 4))
    by lia.
  rewrite setitem_row_zeros by apply draw_length.
  unfold setitem_from. cbn [shape rows fst snd].
  destruct (broadcast_ndarray _ _ _) as [rs|] eqn:Hb; cbn [fst snd self];
    [intros _|discriminate].
  eexists. cbn [installed w2v_vector_matrix]. split; [reflexivity|].
  cbn [rows]. repeat split.
  destruct (@broadcast_ndarray_rows _ _ _ _ Harr Hc Hb) as [HF _]. exact HF.
Qed.

Lemma reserved_rows_layout_witness :
  exists m : ndarray,
    w2v_vector_matrix (self (snd (_build_token2idx_from_w2v sample_heap)))
    = Some m
    /\ nth_error (rows m) 0 = Some (zeros 3)
    /\ nth_error (rows m) 1 = Some (draw (world sample_heap) 3)
    /\ nth_error (rows m) 2 = Some (zeros 3)
    /\ nth_error (rows m) 3 = Some (zeros 3)
    /\ Forall (fun r => In r (rows (vectors sample_w2v))) (skipn 4 (rows m)).
Proof.
  apply (@reserved_rows_layout sample_heap sample_w2v); reflexivity.
Defined.

(** C7. After [_build_token2idx_from_w2v] has run on a loaded table that
    holds none of the four reserved tokens, the processor's vocabulary is the
    built one: [processor.token2idx] is the constructed [token2idx], and
    [processor.idx2token] is its inverse, [idx2token[token2idx[t]] = t] for
    every token [t] of [token2idx]. *)
Theorem processor_vocabulary_aligned (h : Heap) (w2v : KeyedVectors) :
  loads h w2v ->
  KeyedVectors_ok w2v = true ->
  distinct (reserved (processor (self h))) = true ->
  disjoint (index2word w2v) (reserved (processor (self h))) = true ->
  let r := _build_token2idx_from_w2v h in
  let p' := processor (self (snd r)) in
  fst r = Ok tt
  /\ token2idx p' = build_token2idx (processor (self h)) w2v
  /\ w2v_token2idx (self (snd r)) = Some (token2idx p')
  /\ (forall t i,
        PyDict.get string_dec (token2idx p') t = Some i ->
        PyDict.get Nat.eq_dec (idx2token p') i = Some t)
  /\ (forall t i,
        PyDict.get Nat.eq_dec (idx2token p') i = Some t ->
        PyDict.get string_dec (token2idx p') t = Some i).
Proof.
  intros Hl Hok Hres Hdis r p'.
  destruct (KeyedVectors_ok_inv _ Hok) as (Hws & _).
  subst p' r. rewrite (run_fresh Hl Hok Hres Hdis).
  cbn [fst snd self installed processor token2idx idx2token w2v_token2idx].
  assert (Hk : NoDup (PyDict.keys (loaded_dict (processor (self h)) w2v))).
  { rewrite loaded_dict_keys. now apply NoDup_reserved_words. }
  assert (Hv : NoDup (PyDict.values (loaded_dict (processor (self h)) w2v))).
  { rewrite loaded_dict_values. apply seq_NoDup. }
  split; [reflexivity|].
  split; [symmetry; now apply build_token2idx_fresh|].
  split; [reflexivity|].
  split; intros t i H; now apply (@invert_get _ t i Hk Hv).
Qed.

Lemma processor_vocabulary_aligned_witness :
  let r := _build_token2idx_from_w2v sample_heap in
  let p' := processor (self (snd r)) in
  fst r = Ok tt
  /\ token2idx p' = build_token2idx sample_processor sample_w2v
  /\ w2v_token2idx (self (snd r)) = Some (token2idx p')
  /\ (forall t i,
        PyDict.get string_dec (token2idx p') t = Some i ->
        PyDict.get Nat.eq_dec (idx2token p') i = Some t)
  /\ (forall t i,
        PyDict.get Nat.eq_dec (idx2token p') i = Some t ->
        PyDict.get string_dec (token2idx p') t = Some i).
Proof.
  apply (@processor_vocabulary_aligned sample_heap sample_w2v); reflexivity.
Defined.

(** C8. The method handles no exception of its own: when loading the table
    raises, [_build_token2idx_from_w2v] raises the same exception and leaves
    the object as it was; [w2v_model_loaded] stays [False], and
    [embedding_size], [w2v_vector_matrix], [w2v_token2idx] and the
    processor's vocabularies are not modified. *)
Theorem load_exception_propagates (h : Heap) (e : Exn) :
  disk (world h) (w2v_path (self h)) (w2v_kwargs (self h)) = Raise e ->
  let r := _build_token2idx_from_w2v h in
  fst r = Raise e
  /\ self (snd r) = self h
  /\ (w2v_model_loaded (self h) = false ->
      w2v_model_loaded (self (snd r)) = false)
  /\ embedding_size (self (snd r)) = embedding_size (self h)
  /\ w2v_vector_matrix (self (snd r)) = w2v_vector_matrix (self h)
  /\ w2v_token2idx (self (snd r)) = w2v_token2idx (self h)
  /\ token2idx (processor (self (snd r))) = token2idx (processor (self h))
  /\ idx2token (processor (self (snd r))) = idx2token (processor (self h)).
Proof.
  intros Hd r. subst r. rewrite (run_load_raises h Hd). cbn [fst snd self].
  repeat split. trivial.
Qed.

Lemma load_exception_propagates_witness :
  let r := _build_token2idx_from_w2v missing_heap in
  fst r = Raise (LibraryError "No such file or directory")
  /\ self (snd r) = self missing_heap
  /\ (w2v_model_loaded (self missing_heap) = false ->
      w2v_model_loaded (self (snd r)) = false)
  /\ embedding_size (self (snd r)) = embedding_size (self missing_heap)
  /\ w2v_vector_matrix (self (snd r)) = w2v_vector_matrix (self missing_heap)
  /\ w2v_token2idx (self (snd r)) = w2v_token2idx (self missing_heap)
  /\ token2idx (processor (self (snd r)))
     = token2idx (processor (self missing_heap))
  /\ idx2token (processor (self (snd r)))
     = idx2token (processor (self missing_heap)).
Proof.
  apply (@load_exception_propagates missing_heap
           (LibraryError "No such file or directory")).
  reflexivity.
Defined.

(** C10. On a loaded table that holds none of the four reserved tokens the
    built [token2idx] has exactly 4 + (number of loaded words) entries, with
    pairwise different, contiguous indices 0..n-1, so that the assignment
    [vector_matrix[4:] = w2v.vectors] has matching shapes and the call does
    not fail. Without that precondition indices can collide and the shapes
    can mismatch: a table whose first word is the pad token gives two tokens
    the index 4, and the assignment raises. *)
Theorem token2idx_contiguous_and_shape_correct :
  (forall (h : Heap) (w2v : KeyedVectors),
     loads h w2v ->
     KeyedVectors_ok w2v = true ->
     distinct (reserved (processor (self h))) = true ->
     disjoint (index2word w2v) (reserved (processor (self h))) = true ->
     let d := build_token2idx (processor (self h)) w2v in
     PyDict.len d = 4 + List.length (index2word w2v)
     /\ PyDict.values d = seq 0 (PyDict.len d)
     /\ NoDup (PyDict.values d)
     /\ NoDup (PyDict.keys d)
     /\ fst (shape (vectors w2v)) = PyDict.len d - 4
     /\ fst (_build_token2idx_from_w2v h) = Ok tt)
  /\ (exists (h : Heap) (w2v : KeyedVectors),
        loads h w2v
        /\ KeyedVectors_ok w2v = true
        /\ distinct (reserved (processor (self h))) = true
        /\ disjoint (index2word w2v) (reserved (processor (self h))) = false
        /\ let d := build_token2idx (processor (self h)) w2v in
           ~ NoDup (PyDict.values d)
           /\ fst (shape (vectors w2v)) <> PyDict.len d - 4
           /\ fst (_build_token2idx_from_w2v h) = Raise ValueError).
Proof.
  split.
  - intros h w2v Hl Hok Hres Hdis d.
    destruct (KeyedVectors_ok_inv _ Hok) as (Hws & _ & Hn & _).
    subst d. rewrite (build_token2idx_fresh _ _ Hres Hws Hdis).
    fold (loaded_dict (processor (self h)) w2v).
    rewrite loaded_dict_len, loaded_dict_values, loaded_dict_keys.
    repeat split.
    + apply seq_NoDup.
    + now apply NoDup_reserved_words.
    + lia.
    + now rewrite (run_fresh Hl Hok Hres Hdis).
  - exists clash_heap, clash_w2v.
    repeat split; try reflexivity.
    + vm_compute. intros H.
      inversion H as [|? ? Hin _]; subst. apply Hin. simpl. tauto.
    + vm_compute. discriminate.
Qed.

Lemma token2idx_contiguous_and_shape_correct_witness :
  let d := build_token2idx (processor (self sample_heap)) sample_w2v in
  PyDict.len d = 4 + List.length (index2word sample_w2v)
  /\ PyDict.values d = seq 0 (PyDict.len d)
  /\ NoDup (PyDict.values d)
  /\ NoDup (PyDict.keys d)
  /\ fst (shape (vectors sample_w2v)) = PyDict.len d - 4
  /\ fst (_build_token2idx_from_w2v sample_heap) = Ok tt.
Proof.
  apply (proj1 token2idx_contiguous_and_shape_correct sample_heap sample_w2v);
    reflexivity.
Defined.

(* ===================================================================== *)
(** ** Graph construction *)
(* ===================================================================== *)

Lemma layers_of_branches a b m (l : list (nat * dim)) :
  flat_map layers_of (map (branch_of a b m) l) = map (embedding_of a b m) l.
Proof.
  induction l as [|ix l IH]; simpl; [reflexivity|]. now rewrite IH.
Qed.

Lemma placeholders_of_branches a b m (l : list (nat * dim)) :
  flat_map placeholders_of (map (branch_of a b m) l) = map input_of l.
Proof.
  induction l as [|ix l IH]; simpl; [reflexivity|]. now rewrite IH.
Qed.

Lemma filter_embedding_of a b m (l : list (nat * dim)) :
  filter is_embedding (map (embedding_of a b m) l) = map (embedding_of a b m) l.
Proof.
  induction l as [|ix l IH]; simpl; [reflexivity|]. now rewrite IH.
Qed.

Lemma no_concatenate_among_embeddings a b m (l : list (nat * dim)) :
  existsb is_concatenate (map (embedding_of a b m) l) = false.
Proof.
  induction l as [|ix l IH]; simpl; [reflexivity|exact IH].
Qed.

Lemma enumerate_length (A : Type) (l : list A) :
  List.length (enumerate l) = List.length l.
Proof.
  unfold enumerate. rewrite length_combine, length_seq. lia.
Qed.

Lemma nth_error_numbered (A : Type) (l : list A) : forall s i x,
  nth_error l i = Some x ->
  nth_error (combine (seq s (List.length l)) l) i = Some (s + i, x).
Proof.
  induction l as [|y l IH]; intros s i x Hi.
  - destruct i; discriminate.
  - destruct i as [|i]; simpl in *.
    + inversion Hi; subst. do 2 f_equal. lia.
    + rewrite (IH (S s) i x Hi). do 2 f_equal. lia.
Qed.

Lemma nth_error_enumerate (A : Type) (l : list A) i x :
  nth_error l i = Some x -> nth_error (enumerate l) i = Some (i, x).
Proof. intros Hi. unfold enumerate. now rewrite (nth_error_numbered l 0 i Hi). Qed.

Lemma enumerate_values (A : Type) (l : list A) :
  map snd (enumerate l) = l.
Proof.
  unfold enumerate. apply values_combine. rewrite length_seq. lia.
Qed.

(** The branch outputs can be concatenated exactly when the lengths
    agree. *)
Lemma branches_compatible a b m (l : list (nat * dim)) :
  all_compatible
    (map (@removelast dim) (map tensor_shape (map (branch_of a b m) l)))
  = lengths_agree (map snd l).
Proof.
  rewrite !map_map.
  rewrite (map_ext (fun ix => removelast (tensor_shape (branch_of a b m ix)))
             (fun ix => [snd ix])) by reflexivity.
  assert (Hrow : forall d (l' : list (nat * dim)),
            forallb (dims_compatible [d]) (map (fun ix => [snd ix]) l')
            = forallb (dim_compatible d) (map snd l')).
  { intros d l'. induction l' as [|ix l' IH]; [reflexivity|].
    cbn [map forallb]. rewrite IH. f_equal. simpl. apply andb_true_r. }
  induction l as [|ix l IH]; [reflexivity|].
  cbn [map all_compatible lengths_agree]. now rewrite IH, Hrow.
Qed.

Lemma lengths_agree_short (l : list dim) :
  List.length l <= 1 -> lengths_agree l = true.
Proof.
  destruct l as [|d [|d' l]]; simpl; intros H; try reflexivity. lia.
Qed.

Section GraphFacts.

Variable token_count : WordEmbedding -> nat.

(** The loop reads the object and leaves the heap as it is. *)
Lemma build_branches_heap (l : list (nat * dim)) : forall ins outs h,
  snd (build_branches token_count l ins outs h) = h.
Proof.
  induction l as [|[index seq_len] l IH]; intros ins outs h; simpl.
  - reflexivity.
  - unfold bind, get_self, getattr, lift.
    destruct (w2v_vector_matrix (self h)); [|reflexivity].
    destruct (keras_Embedding _ _ _ _ _) as [layer|e]; [|reflexivity].
    destruct (call_layer layer _) as [t|e]; [apply IH|reflexivity].
Qed.

(** One turn of the loop when keras takes the matrix. *)
Lemma embedding_made_and_called a b m (ix : nat * dim) :
  embedding_fits a b m = true ->
  keras_Embedding a b [m] false ("layer_embedding_" ++ str (fst ix))%string
  = Ok (embedding_of a b m ix)
  /\ call_layer (embedding_of a b m ix) (input_of ix) = Ok (branch_of a b m ix).
Proof.
  unfold embedding_fits. intros H.
  apply andb_true_iff in H. destruct H as [Hpos Hshape].
  unfold keras_Embedding, call_layer, embedding_of. rewrite Hpos, Hshape.
  split; reflexivity.
Qed.

Lemma embedding_refused a b m name (t : Tensor) :
  embedding_fits a b m = false ->
  match keras_Embedding a b [m] false name with
  | Ok layer => call_layer layer t
  | Raise e => Raise e
  end = Raise ValueError.
Proof.
  unfold embedding_fits, keras_Embedding. intros H.
  destruct ((0 <? a) && (0 <? b)); [|reflexivity].
  simpl in H. unfold call_layer. now rewrite H.
Qed.

Lemma build_branches_run (l : list (nat * dim)) : forall ins outs h m,
  w2v_vector_matrix (self h) = Some m ->
  embedding_fits (token_count (self h)) (embedding_size (self h)) m = true ->
  build_branches token_count l ins outs h
  = (Ok (ins ++ map input_of l,
         outs ++ map (branch_of (token_count (self h))
                        (embedding_size (self h)) m) l), h).
Proof.
  induction l as [|[index seq_len] l IH]; intros ins outs h m Hm Hfit.
  - simpl. unfold ret. now rewrite !app_nil_r.
  - cbn [build_branches map]. unfold bind, get_self, getattr, lift. rewrite Hm.
    destruct (embedding_made_and_called _ _ _ (index, seq_len) Hfit)
      as [Hmade Hcalled].
    cbn [fst] in Hmade. rewrite Hmade.
    change (L_Input [seq_len] ("input_" ++ str index)%string)
      with (input_of (index, seq_len)).
    rewrite Hcalled.
    rewrite (IH _ _ h m Hm Hfit). now rewrite <- !app_assoc.
Qed.

(** The ways [_build_model] ends. *)
Lemma build_model_cases (h : Heap) :
  _build_model token_count h
  = if token_count (self h) =? 0 then (Ok tt, h)
    else
      match sequence_length (self h), w2v_vector_matrix (self h) with
      | [], _ =>
          (Ok tt,
           {| self := set_embed_model (keras_Model [] (inr [])) (self h);
              world := world h |})
      | _ :: _, None => (Raise (AttributeError "w2v_vector_matrix"), h)
      | _ :: _, Some m =>
          if embedding_fits (token_count (self h)) (embedding_size (self h)) m
             && lengths_agree (sequence_length (self h))
          then
            (Ok tt,
             {| self := set_embed_model (built_model token_count (self h) m)
                          (self h);
                world := world h |})
          else (Raise ValueError, h)
      end.
Proof.
  destruct (token_count (self h) =? 0) eqn:Htc.
  - unfold _build_model, bind, get_self. now rewrite Htc.
  - unfold _build_model. unfold bind at 1. unfold get_self. rewrite Htc.
    destruct (sequence_length (self h)) as [|seq_len l] eqn:Hs; [reflexivity|].
    destruct (w2v_vector_matrix (self h)) as [m|] eqn:Hm.
    + destruct (embedding_fits _ _ m) eqn:Hfit.
      * unfold bind at 1.
        rewrite (build_branches_run _ [] [] h Hm Hfit). cbn [fst snd].
        rewrite !app_nil_l.
        rewrite length_map, enumerate_length.
        unfold built_model. rewrite Hs, length_map, enumerate_length.
        destruct (1 <? List.length (seq_len :: l)) eqn:Hn.
        -- unfold bind, lift, ret, assign, call_layer_list, concatenate_accepts.
           destruct (map tensor_shape _) as [|s0 ss] eqn:Hsh;
             [discriminate Hsh|].
           rewrite <- Hsh, branches_compatible, enumerate_values.
           cbn [andb]. destruct (lengths_agree (seq_len :: l)); reflexivity.
        -- apply Nat.ltb_ge in Hn.
           rewrite (lengths_agree_short _ Hn). reflexivity.
      * cbn [andb]. unfold bind at 1.
        cbn [enumerate List.length seq combine build_branches].
        unfold bind, get_self, getattr, lift. rewrite Hm.
        pose proof (@embedding_refused _ _ _
                      ("layer_embedding_" ++ str 0)%string
                      (L_Input [seq_len] ("input_" ++ str 0)%string) Hfit)
          as Href.
        destruct (keras_Embedding _ _ _ _ _) as [layer|e].
        -- rewrite Href. reflexivity.
        -- inversion Href. reflexivity.
    + unfold bind at 1.
      cbn [enumerate List.length seq combine build_branches].
      unfold bind, get_self, getattr. now rewrite Hm.
Qed.

Lemma built_model_no_length (o : WordEmbedding) (m : ndarray) :
  sequence_length o = [] ->
  built_model token_count o m = keras_Model [] (inr []).
Proof. intros Hs. unfold built_model. now rewrite Hs. Qed.

Lemma build_model_run (h : Heap) (m : ndarray) :
  token_count (self h) <> 0 ->
  w2v_vector_matrix (self h) = Some m ->
  embedding_fits (token_count (self h)) (embedding_size (self h)) m = true ->
  lengths_agree (sequence_length (self h)) = true ->
  _build_model token_count h
  = (Ok tt, {| self := set_embed_model (built_model token_count (self h) m)
                 (self h);
               world := world h |}).
Proof.
  intros Htc Hm Hfit Hag. rewrite build_model_cases.
  apply Nat.eqb_neq in Htc. rewrite Htc, Hm, Hfit, Hag.
  destruct (sequence_length (self h)) eqn:Hs; [|reflexivity].
  now rewrite (built_model_no_length _ m Hs).
Qed.

(** [_build_model] writes [embed_model] and nothing else. *)
Lemma build_model_keeps (h : Heap) :
  let h' := snd (_build_model token_count h) in
  world h' = world h
  /\ w2v_model_loaded (self h') = w2v_model_loaded (self h)
  /\ embedding_size (self h') = embedding_size (self h)
  /\ w2v_vector_matrix (self h') = w2v_vector_matrix (self h)
  /\ w2v_token2idx (self h') = w2v_token2idx (self h).
Proof.
  cbv zeta. rewrite build_model_cases.
  destruct (token_count (self h) =? 0); [simpl; tauto|].
  destruct (sequence_length (self h)); [simpl; tauto|].
  destruct (w2v_vector_matrix (self h)) as [m|] eqn:Hm; [|simpl; tauto].
  destruct (_ && _); simpl; tauto.
Qed.

Lemma built_model_embeddings (o : WordEmbedding) (m : ndarray) :
  filter is_embedding (model_layers (built_model token_count o m))
  = map (embedding_of (token_count o) (embedding_size o) m)
      (enumerate (sequence_length o)).
Proof.
  unfold built_model, model_layers. cbn [outputs].
  destruct (1 <? _); cbn [layers_of]; rewrite layers_of_branches.
  - rewrite filter_app, filter_embedding_of. simpl. apply app_nil_r.
  - apply filter_embedding_of.
Qed.

(** C5. Every embedding layer [_build_model] makes is frozen
    ([trainable=False]) and takes the one matrix [self.w2v_vector_matrix] as
    its weights, for every configured sequence length: the loop makes one
    such layer per length, whatever the lengths are, and a model that is
    stored has exactly these embedding layers. *)
Theorem embedding_layers_frozen_and_shared (h : Heap) (m : ndarray) :
  token_count (self h) <> 0 ->
  w2v_vector_matrix (self h) = Some m ->
  embedding_fits (token_count (self h)) (embedding_size (self h)) m = true ->
  let created :=
    map (embedding_of (token_count (self h)) (embedding_size (self h)) m)
      (enumerate (sequence_length (self h))) in
  let r := _build_model token_count h in
  List.length created = List.length (sequence_length (self h))
  /\ (forall l, In l created ->
        exists input_dim output_dim name,
          l = L_Embedding input_dim output_dim [m] false name)
  /\ (exists ins outs,
        build_branches token_count (enumerate (sequence_length (self h)))
          [] [] h = (Ok (ins, outs), h)
        /\ flat_map layers_of outs = created)
  /\ (lengths_agree (sequence_length (self h)) = true -> fst r = Ok tt)
  /\ (fst r = Ok tt ->
        exists model : Model,
          embed_model (self (snd r)) = Some model
          /\ filter is_embedding (model_layers model) = created
          /\ (forall l, In l (model_layers model) -> is_embedding l = true ->
                exists input_dim output_dim name,
                  l = L_Embedding input_dim output_dim [m] false name)).
Proof.
  intros Htc Hm Hfit created r.
  assert (Hcreated : forall l, In l created ->
            exists input_dim output_dim name,
              l = L_Embedding input_dim output_dim [m] false name).
  { intros l Hin. apply in_map_iff in Hin. destruct Hin as [ix [Heq _]].
    subst l. unfold embedding_of. eauto. }
  split; [subst created; now rewrite length_map, enumerate_length|].
  split; [exact Hcreated|]. split.
  { do 2 eexists. split.
    - apply (build_branches_run _ [] [] h Hm Hfit).
    - cbn [app]. apply layers_of_branches. }
  subst r. rewrite build_model_cases.
  apply Nat.eqb_neq in Htc. rewrite Htc, Hm, Hfit. cbn [andb].
  destruct (sequence_length (self h)) as [|seq_len l] eqn:Hs.
  - split; [reflexivity|]. intros _. cbn [fst snd self set_embed_model embed_model].
    eexists. split; [reflexivity|].
    subst created. split; [reflexivity|]. intros l [].
  - destruct (lengths_agree (seq_len :: l)); cbn [fst snd];
      [|split; discriminate].
    split; [reflexivity|]. intros _.
    cbn [self set_embed_model embed_model].
    exists (built_model token_count (self h) m). split; [reflexivity|].
    pose proof (built_model_embeddings (self h) m) as Hf. rewrite Hs in Hf.
    split; [exact Hf|].
    intros lyr Hl He. apply Hcreated. subst created. rewrite <- Hf.
    apply filter_In. now split.
Qed.

(** C6, the failing case. With two or more configured lengths of which two
    fixed ones differ, the loop makes all the branches, but the call of the
    [Concatenate] layer in line 116 raises [ValueError]: line 120 is not
    reached and no model is stored. *)
Theorem differing_lengths_raise (h : Heap) (m : ndarray) :
  token_count (self h) <> 0 ->
  w2v_vector_matrix (self h) = Some m ->
  embedding_fits (token_count (self h)) (embedding_size (self h)) m = true ->
  lengths_agree (sequence_length (self h)) = false ->
  let branches :=
    map (branch_of (token_count (self h)) (embedding_size (self h)) m)
      (enumerate (sequence_length (self h))) in
  1 < List.length (sequence_length (self h))
  /\ build_branches token_count (enumerate (sequence_length (self h))) [] [] h
     = (Ok (map input_of (enumerate (sequence_length (self h))), branches), h)
  /\ call_layer_list (L_Concatenate "layer_concatenate") branches
     = Raise ValueError
  /\ _build_model token_count h = (Raise ValueError, h).
Proof.
  intros Htc Hm Hfit Hag branches.
  assert (Hn : 1 < List.length (sequence_length (self h))).
  { destruct (Nat.lt_ge_cases 1 (List.length (sequence_length (self h))))
      as [H|H]; [exact H|].
    rewrite lengths_agree_short in Hag by lia. discriminate. }
  split; [exact Hn|]. split.
  { apply (build_branches_run _ [] [] h Hm Hfit). }
  split.
  - unfold call_layer_list, concatenate_accepts.
    destruct (map tensor_shape branches) as [|s0 ss] eqn:Hsh; [reflexivity|].
    rewrite <- Hsh. subst branches.
    rewrite branches_compatible, enumerate_values, Hag. reflexivity.
  - rewrite build_model_cases.
    apply Nat.eqb_neq in Htc. rewrite Htc, Hm, Hfit, Hag. cbn [andb].
    destruct (sequence_length (self h)); [simpl in Hn; lia|reflexivity].
Qed.

End GraphFacts.

(** C4, the failing case. On the object of the script at the end of the
    file, with the sequence lengths 12 and 20 and the table loaded, the loop
    makes the two placeholders and the two embedding layers, but
    [_build_model] raises [ValueError] and [embed_model] stays unset: there
    is no resulting model with two inputs. *)
Theorem script_lengths_store_no_model :
  sequence_length (self sample_loaded_heap) = [Some 12; Some 20]
  /\ build_branches sample_token_count
       (enumerate (sequence_length (self sample_loaded_heap))) [] []
       sample_loaded_heap
     = (Ok ([L_Input [Some 12] "input_0"; L_Input [Some 20] "input_1"],
            [Call (L_Embedding 6 3 [sample_matrix] false "layer_embedding_0")
               (L_Input [Some 12] "input_0");
             Call (L_Embedding 6 3 [sample_matrix] false "layer_embedding_1")
               (L_Input [Some 20] "input_1")]),
        sample_loaded_heap)
  /\ _build_model sample_token_count sample_loaded_heap
     = (Raise ValueError, sample_loaded_heap)
  /\ embed_model
       (self (snd (_build_model sample_token_count sample_loaded_heap)))
     = None.
Proof.
  split; [reflexivity|]. split; [vm_compute; reflexivity|].
  split; vm_compute; reflexivity.
Qed.

Lemma embedding_layers_frozen_and_shared_witness :
  let created :=
    [L_Embedding 6 3 [sample_matrix] false "layer_embedding_0";
     L_Embedding 6 3 [sample_matrix] false "layer_embedding_1"] in
  let r := _build_model sample_token_count sample_loaded_heap in
  List.length created = 2
  /\ (forall l, In l created ->
        exists input_dim output_dim name,
          l = L_Embedding input_dim output_dim [sample_matrix] false name)
  /\ (exists ins outs,
        build_branches sample_token_count
          (enumerate (sequence_length (self sample_loaded_heap)))
          [] [] sample_loaded_heap = (Ok (ins, outs), sample_loaded_heap)
        /\ flat_map layers_of outs = created)
  /\ (lengths_agree (sequence_length (self sample_loaded_heap)) = true ->
      fst r = Ok tt)
  /\ (fst r = Ok tt ->
        exists model : Model,
          embed_model (self (snd r)) = Some model
          /\ filter is_embedding (model_layers model) = created
          /\ (forall l, In l (model_layers model) -> is_embedding l = true ->
                exists input_dim output_dim name,
                  l = L_Embedding input_dim output_dim [sample_matrix] false
                        name)).
Proof.
  apply (@embedding_layers_frozen_and_shared sample_token_count
           sample_loaded_heap sample_matrix).
  - vm_compute. discriminate.
  - reflexivity.
  - reflexivity.
Defined.

Lemma differing_lengths_raise_witness :
  let branches :=
    map (branch_of 6 3 sample_matrix) [(0, Some 12); (1, Some 20)] in
  1 < 2
  /\ build_branches sample_token_count
       (enumerate (sequence_length (self sample_loaded_heap))) [] []
       sample_loaded_heap
     = (Ok (map input_of [(0, Some 12); (1, Some 20)], branches),
        sample_loaded_heap)
  /\ call_layer_list (L_Concatenate "layer_concatenate") branches
     = Raise ValueError
  /\ _build_model sample_token_count sample_loaded_heap
     = (Raise ValueError, sample_loaded_heap).
Proof.
  apply (@differing_lengths_raise sample_token_count sample_loaded_heap
           sample_matrix).
  - vm_compute. discriminate.
  - reflexivity.
  - reflexivity.
  - reflexivity.
Defined.

(* ===================================================================== *)
(** ** Loading once *)
(* ===================================================================== *)

(** A call that ends normally has set the flag. *)
Lemma successful_load_sets_flag (h : Heap) :
  fst (_build_token2idx_from_w2v h) = Ok tt ->
  w2v_model_loaded (self (snd (_build_token2idx_from_w2v h))) = true.
Proof.
  destruct (disk (world h) (w2v_path (self h)) (w2v_kwargs (self h)))
    as [w2v|e] eqn:Hd.
  - rewrite (run_loaded h Hd).
    destruct (setitem_row _ 1 _) as [m1|e]; [|discriminate].
    destruct (setitem_from m1 4 _) as [m2|e]; [|discriminate].
    reflexivity.
  - rewrite (run_load_raises h Hd). discriminate.
Qed.

Lemma build_model_keeps_w2v token_count (h : Heap) :
  keeps_w2v h (snd (_build_model token_count h)).
Proof.
  destruct (build_model_keeps token_count h) as (Hw & Hf & He & Hm & Hd).
  unfold keeps_w2v. rewrite Hw. tauto.
Qed.

Section LoadOnce.

Variables X Y : Type.
Variable wrap_as_tuple_x : X -> X.
Variable wrap_as_tuple_y : Y -> Y.
Variable Embedding_analyze_corpus : X -> Y -> M unit.

(** The base-class method, which is outside this file, does not load the
    table and does not write the attributes the loading sets. *)
Hypothesis base_keeps_w2v :
  forall x y h, keeps_w2v h (snd (Embedding_analyze_corpus x y h)).

Lemma analyze_corpus_loaded (x : X) (y : Y) (h : Heap) :
  w2v_model_loaded (self h) = true ->
  analyze_corpus wrap_as_tuple_x wrap_as_tuple_y Embedding_analyze_corpus x y h
  = Embedding_analyze_corpus (wrap_as_tuple_x x) (wrap_as_tuple_y y) h.
Proof.
  intros Hf. unfold analyze_corpus, bind, get_self. rewrite Hf. reflexivity.
Qed.

(** C9. The table is loaded at most once per object: a call of
    [_build_token2idx_from_w2v] that ends normally sets [w2v_model_loaded],
    and once it is [True] a call of [analyze_corpus] goes straight to the
    base-class method, so that no sequence of later calls calls the loader
    or changes [w2v_token2idx], [w2v_vector_matrix] or [embedding_size]. *)
Theorem table_loaded_at_most_once (calls : list (X * Y)) (h : Heap) :
  w2v_model_loaded (self h) = true ->
  (forall h0, fst (_build_token2idx_from_w2v h0) = Ok tt ->
     w2v_model_loaded (self (snd (_build_token2idx_from_w2v h0))) = true)
  /\ (forall x y,
        analyze_corpus wrap_as_tuple_x wrap_as_tuple_y
          Embedding_analyze_corpus x y h
        = Embedding_analyze_corpus (wrap_as_tuple_x x) (wrap_as_tuple_y y) h)
  /\ let h' :=
       analyze_corpus_calls wrap_as_tuple_x wrap_as_tuple_y
         Embedding_analyze_corpus calls h in
     load_calls (world h') = load_calls (world h)
     /\ w2v_token2idx (self h') = w2v_token2idx (self h)
     /\ w2v_vector_matrix (self h') = w2v_vector_matrix (self h)
     /\ embedding_size (self h') = embedding_size (self h)
     /\ w2v_model_loaded (self h') = true.
Proof.
  intros Hf.
  split; [exact successful_load_sets_flag|].
  split; [intros x y; now apply analyze_corpus_loaded|].
  revert h Hf. induction calls as [|[x y] calls' IH]; intros h Hf; simpl.
  - repeat split. exact Hf.
  - rewrite (analyze_corpus_loaded x y h Hf).
    destruct (base_keeps_w2v (wrap_as_tuple_x x) (wrap_as_tuple_y y) h)
      as (Hf' & He & Hm & Hd & Hc).
    rewrite Hf in Hf'.
    destruct (IH _ Hf') as (Hc1 & Hd1 & Hm1 & He1 & Hf1).
    repeat split; congruence.
Qed.

End LoadOnce.

(** Two calls on the loaded sample object, with a base-class method that
    rebuilds the model. *)
Lemma table_loaded_at_most_once_witness :
  let base := fun (_ : list (list string)) (_ : list string) =>
                _build_model sample_token_count in
  let calls := [([["the"; "of"]], ["a"]); ([["of"]], ["b"])] in
  let h := sample_loaded_heap in
  (forall h0, fst (_build_token2idx_from_w2v h0) = Ok tt ->
     w2v_model_loaded (self (snd (_build_token2idx_from_w2v h0))) = true)
  /\ (forall x y,
        analyze_corpus (fun x => x) (fun y => y) base x y h = base x y h)
  /\ let h' := analyze_corpus_calls (fun x => x) (fun y => y) base calls h in
     load_calls (world h') = load_calls (world h)
     /\ w2v_token2idx (self h') = w2v_token2idx (self h)
     /\ w2v_vector_matrix (self h') = w2v_vector_matrix (self h)
     /\ embedding_size (self h') = embedding_size (self h)
     /\ w2v_model_loaded (self h') = true.
Proof.
  intros base calls h.
  apply (@table_loaded_at_most_once (list (list string)) (list string)
           (fun x => x) (fun y => y) base).
  - intros x y h0. apply build_model_keeps_w2v.
  - reflexivity.
Defined.

(* ===================================================================== *)
(** ** Dictionaries without assumptions on the keys *)
(* ===================================================================== *)

Section DictInvariants.

Variables K V : Type.
Variable eq_dec : forall x y : K, {x = y} + {x <> y}.

Lemma setitem_keys_in (d : PyDict.t K V) k v :
  In k (PyDict.keys d) -> PyDict.keys (PyDict.setitem eq_dec d k v) = PyDict.keys d.
Proof.
  induction d as [|[k' v'] d IH]; simpl; intros Hin.
  - contradiction.
  - destruct (eq_dec k k') as [->|Hne]; simpl; [reflexivity|].
    f_equal. apply IH. destruct Hin as [Heq|Hin]; [congruence|exact Hin].
Qed.

Lemma setitem_get_same (d : PyDict.t K V) k v :
  PyDict.get eq_dec (PyDict.setitem eq_dec d k v) k = Some v.
Proof.
  induction d as [|[k' v'] d IH]; simpl.
  - destruct (eq_dec k k); congruence.
  - destruct (eq_dec k k') as [Heq|Hne]; simpl.
    + destruct (eq_dec k k'); congruence.
    + destruct (eq_dec k k'); [contradiction|exact IH].
Qed.

Lemma setitem_get_other (d : PyDict.t K V) k k' v :
  k' <> k ->
  PyDict.get eq_dec (PyDict.setitem eq_dec d k v) k' = PyDict.get eq_dec d k'.
Proof.
  intros Hne. induction d as [|[k0 v0] d IH]; simpl.
  - destruct (eq_dec k' k); [contradiction|reflexivity].
  - destruct (eq_dec k k0) as [Heq|Hk]; simpl.
    + destruct (eq_dec k' k0); [congruence|reflexivity].
    + destruct (eq_dec k' k0); [reflexivity|exact IH].
Qed.

Lemma get_app (d1 d2 : PyDict.t K V) k :
  PyDict.get eq_dec (d1 ++ d2) k
  = match PyDict.get eq_dec d1 k with
    | Some v => Some v
    | None => PyDict.get eq_dec d2 k
    end.
Proof.
  induction d1 as [|[k' v'] d1 IH]; simpl; [reflexivity|].
  destruct (eq_dec k k'); [reflexivity|exact IH].
Qed.

Lemma get_Some_iff_key (d : PyDict.t K V) k :
  In k (PyDict.keys d) <-> exists v, PyDict.get eq_dec d k = Some v.
Proof.
  induction d as [|[k' v'] d IH]; simpl.
  - split; [contradiction|intros [v Hv]; discriminate].
  - destruct (eq_dec k k') as [->|Hne].
    + split; [intros _; eauto|intros _; now left].
    + rewrite <- IH. split; [intros [Heq|Hin]; [congruence|exact Hin]|now right].
Qed.

Section Fold.

Variable A : Type.
Variable kf : A -> K.
Variable vf : PyDict.t K V -> A -> V.

(** A run of assignments keeps the keys unique, adds exactly the assigned
    keys, and grows the dictionary by at most one item per assignment. *)
Lemma fold_setitem_keys (l : list A) : forall d : PyDict.t K V,
  NoDup (PyDict.keys d) ->
  let d' := fold_left (fun d x => PyDict.setitem eq_dec d (kf x) (vf d x)) l d in
  NoDup (PyDict.keys d')
  /\ (forall k, In k (PyDict.keys d') <-> In k (PyDict.keys d) \/ In k (map kf l))
  /\ PyDict.len d <= PyDict.len d'
  /\ PyDict.len d' <= PyDict.len d + List.length l.
Proof.
  induction l as [|x l IH]; intros d Hnd; simpl.
  - repeat split; try tauto; try lia.
  - set (d1 := PyDict.setitem eq_dec d (kf x) (vf d x)).
    assert (H1 : NoDup (PyDict.keys d1)
                 /\ (forall k, In k (PyDict.keys d1) <-> In k (PyDict.keys d) \/ k = kf x)
                 /\ PyDict.len d <= PyDict.len d1 <= PyDict.len d + 1).
    { subst d1. destruct (in_dec eq_dec (kf x) (PyDict.keys d)) as [Hin|Hout].
      - assert (Hlen : PyDict.len (PyDict.setitem eq_dec d (kf x) (vf d x))
                       = PyDict.len d).
        { unfold PyDict.len.
          rewrite <- (length_map fst (PyDict.setitem eq_dec d (kf x) (vf d x))).
          fold (PyDict.keys (PyDict.setitem eq_dec d (kf x) (vf d x))).
          rewrite setitem_keys_in by exact Hin. unfold PyDict.keys.
          apply length_map. }
        rewrite setitem_keys_in by exact Hin. rewrite Hlen.
        repeat split; try lia; try tauto.
        intros [H|H]; [exact H|now subst].
      - rewrite setitem_fresh by exact Hout. rewrite keys_app. simpl.
        unfold PyDict.len. rewrite length_app. simpl.
        repeat split; try lia.
        + apply NoDup_app; [exact Hnd|repeat constructor; simpl; tauto|].
          intros k Hk [Heq|[]]. subst. contradiction.
        + intros H. apply in_app_or in H. simpl in H. intuition.
        + intros [H|H]; apply in_or_app; [now left|right; simpl; now left]. }
    destruct H1 as (Hnd1 & Hk1 & Hl1).
    destruct (IH d1 Hnd1) as (Hnd' & Hk' & Hl' & Hu').
    repeat split; try lia; try exact Hnd'.
    + intros H. apply Hk' in H. rewrite Hk1 in H. intuition.
    + intros H. apply Hk'. rewrite Hk1. intuition.
Qed.

End Fold.

(** [dict(pairs)] looks a key up in the pairs from the right. *)
Lemma get_insert_items (l : list (K * V)) : forall (d : PyDict.t K V) k,
  PyDict.get eq_dec
    (fold_left (fun d kv => PyDict.setitem eq_dec d (fst kv) (snd kv)) l d) k
  = match PyDict.get eq_dec (List.rev l) k with
    | Some v => Some v
    | None => PyDict.get eq_dec d k
    end.
Proof.
  induction l as [|[k0 v0] l IH]; intros d k; simpl.
  - reflexivity.
  - rewrite IH, get_app. destruct (PyDict.get eq_dec (List.rev l) k); [reflexivity|].
    simpl. destruct (eq_dec k k0) as [->|Hne].
    + apply setitem_get_same.
    + now apply setitem_get_other.
Qed.

End DictInvariants.

(* ===================================================================== *)
(** ** The token dictionary without assumptions on the table *)
(* ===================================================================== *)

Lemma existsb_eqb_true x l :
  existsb (String.eqb x) l = true <-> In x l.
Proof.
  rewrite existsb_exists. split.
  - intros [y [Hy Heq]]. apply String.eqb_eq in Heq. now subst.
  - intros Hin. exists x. split; [exact Hin|apply String.eqb_refl].
Qed.

Lemma len_keys (K V : Type) (d : PyDict.t K V) :
  PyDict.len d = List.length (PyDict.keys d).
Proof. unfold PyDict.len, PyDict.keys. now rewrite length_map. Qed.

(** The keys of the dictionary of lines 66 to 74, whatever the tokens. *)
Lemma build_token2idx_inv (p : Processor) (w2v : KeyedVectors) :
  let d := build_token2idx p w2v in
  NoDup (PyDict.keys d)
  /\ (forall t, In t (PyDict.keys d) <-> In t (reserved p ++ index2word w2v))
  /\ PyDict.len d <= 4 + List.length (index2word w2v).
Proof.
  unfold build_token2idx, PyDict.of_items.
  set (items := [(token_pad p, 0); (token_unk p, 1); (token_bos p, 2);
                 (token_eos p, 3)]).
  destruct (@fold_setitem_keys string nat string_dec (string * nat) fst
              (fun _ kv => snd kv) items (PyDict.empty string nat)
              (NoDup_nil string)) as (Hnd0 & Hk0 & _ & Hu0).
  set (base := fold_left
                 (fun d kv => PyDict.setitem string_dec d (fst kv) (snd kv))
                 items (PyDict.empty string nat)) in *.
  destruct (@fold_setitem_keys string nat string_dec string (fun x => x)
              (fun d _ => PyDict.len d) (index2word w2v) base Hnd0)
    as (Hnd & Hk & _ & Hu).
  split; [exact Hnd|]. split.
  - intros t. rewrite Hk, Hk0, map_id, in_app_iff. simpl. tauto.
  - simpl in Hu0. unfold PyDict.len in *. simpl in *. lia.
Qed.

(** With words that do not repeat, each word that is not yet a key adds one
    item. *)
Lemma index_words_len (ws : list string) : forall d : str_dict,
  NoDup ws ->
  PyDict.len
    (fold_left
       (fun token2idx token =>
          PyDict.setitem string_dec token2idx token (PyDict.len token2idx))
       ws d)
  = PyDict.len d
    + List.length
        (filter (fun w => negb (existsb (String.eqb w) (PyDict.keys d))) ws).
Proof.
  induction ws as [|w ws IH]; intros d Hnd; simpl.
  - lia.
  - inversion Hnd as [|? ? Hw Hnd']; subst.
    rewrite (IH _ Hnd').
    destruct (existsb (String.eqb w) (PyDict.keys d)) eqn:Hin; simpl.
    + apply existsb_eqb_true in Hin.
      rewrite !len_keys. rewrite setitem_keys_in by exact Hin. reflexivity.
    + apply existsb_eqb_false in Hin.
      rewrite setitem_fresh by exact Hin.
      rewrite !len_keys, keys_app, length_app. simpl.
      rewrite (filter_ext_in
                 (fun w0 => negb (existsb (String.eqb w0) (PyDict.keys d ++ [w])))
                 (fun w0 => negb (existsb (String.eqb w0) (PyDict.keys d)))).
      * lia.
      * intros a Ha. rewrite existsb_app. simpl.
        assert (Hne : String.eqb a w = false).
        { apply String.eqb_neq. intros ->. contradiction. }
        rewrite Hne. now rewrite !orb_false_r.
Qed.

Lemma build_token2idx_len (p : Processor) (w2v : KeyedVectors) :
  distinct (reserved p) = true ->
  distinct (index2word w2v) = true ->
  PyDict.len (build_token2idx p w2v)
  = 4 + List.length
          (filter (fun w => negb (existsb (String.eqb w) (reserved p)))
             (index2word w2v)).
Proof.
  intros Hres Hws. unfold build_token2idx.
  rewrite of_items_fresh by (apply distinct_NoDup in Hres; exact Hres).
  rewrite index_words_len by now apply distinct_NoDup.
  reflexivity.
Qed.

(** *** Arrays after a broadcast *)

Lemma broadcast_ndarray_length (src : ndarray) (k c : nat) (rs : list vector) :
  ndarray_ok src = true ->
  broadcast_ndarray src k c = Some rs ->
  List.length rs = k.
Proof.
  intros Hok. unfold broadcast_ndarray.
  destruct (_ && _); [|discriminate].
  intros H. inversion H; subst rs; clear H. rewrite length_map.
  destruct (fst (shape src) =? k) eqn:Hk.
  - apply Nat.eqb_eq in Hk. unfold ndarray_ok in Hok.
    apply andb_true_iff in Hok. destruct Hok as [Hlen _].
    apply Nat.eqb_eq in Hlen. congruence.
  - apply repeat_length.
Qed.

(** *** A call on four different reserved tokens *)

(** With four different reserved tokens row 1 exists, and the call ends as
    the assignment to the slice does. *)
Lemma run_reserved_distinct (h : Heap) (w2v : KeyedVectors) :
  loads h w2v ->
  distinct (reserved (processor (self h))) = true ->
  let d := build_token2idx (processor (self h)) w2v in
  let c := vector_size w2v in
  let w' := world_after_load (world h) c in
  _build_token2idx_from_w2v h
  = match broadcast_ndarray (vectors w2v) (PyDict.len d - 4) c with
    | Some rs =>
        (Ok tt,
         {| self := installed (self h) w2v d
                      {| shape := (PyDict.len d, c);
                         rows := [zeros c; draw (world h) c; zeros c; zeros c]
                                 ++ rs |};
            world := w' |})
    | None => (Raise ValueError, {| self := self h; world := w' |})
    end.
Proof.
  intros Hl Hres. cbv zeta.
  rewrite (run_loaded h Hl).
  pose proof (build_token2idx_len_ge (processor (self h)) w2v Hres) as Hlen.
  assert (Hk : exists k, PyDict.len (build_token2idx (processor (self h)) w2v)
                         = 4 + k).
  { exists (PyDict.len (build_token2idx (processor (self h)) w2v) - 4). lia. }
  destruct Hk as [k Hk]. rewrite Hk.
  rewrite setitem_row_zeros by apply draw_length.
  unfold setitem_from. cbn [shape rows fst snd].
  destruct (broadcast_ndarray _ _ _) as [rs|]; reflexivity.
Qed.

(** The heap a normal end leaves: the dictionary of lines 66 to 74 and a
    matrix with the four reserved rows first, then rows of the table, one
    row per entry in all. *)
Lemma run_ok_inv (h : Heap) (w2v : KeyedVectors) :
  loads h w2v ->
  KeyedVectors_ok w2v = true ->
  distinct (reserved (processor (self h))) = true ->
  fst (_build_token2idx_from_w2v h) = Ok tt ->
  let d := build_token2idx (processor (self h)) w2v in
  let c := vector_size w2v in
  exists rs : list vector,
    snd (_build_token2idx_from_w2v h)
    = {| self := installed (self h) w2v d
                   {| shape := (PyDict.len d, c);
                      rows := [zeros c; draw (world h) c; zeros c; zeros c]
                              ++ rs |};
         world := world_after_load (world h) c |}
    /\ List.length rs = PyDict.len d - 4
    /\ Forall (fun r => In r (rows (vectors w2v))) rs.
Proof.
  intros Hl Hok Hres.
  destruct (KeyedVectors_ok_inv _ Hok) as (_ & Harr & _ & Hc).
  rewrite (run_reserved_distinct Hl Hres).
  destruct (broadcast_ndarray _ _ _) as [rs|] eqn:Hb; cbn [fst snd];
    [intros _|discriminate].
  exists rs. split; [reflexivity|]. split.
  - exact (@broadcast_ndarray_length _ _ _ _ Harr Hb).
  - destruct (@broadcast_ndarray_rows _ _ _ _ Harr Hc Hb) as [HF _]. exact HF.
Qed.

Lemma run_ok_installed (h : Heap) (w2v : KeyedVectors) :
  loads h w2v ->
  fst (_build_token2idx_from_w2v h) = Ok tt ->
  exists m : ndarray,
    self (snd (_build_token2idx_from_w2v h))
    = installed (self h) w2v (build_token2idx (processor (self h)) w2v) m.
Proof.
  intros Hl. rewrite (run_loaded h Hl).
  destruct (setitem_row _ 1 _) as [m1|e]; [|discriminate].
  destruct (setitem_from m1 4 _) as [m2|e]; [|discriminate].
  intros _. now exists m2.
Qed.

(** The words of a table that are not reserved tokens. *)
Lemma fresh_words_all (ws rs : list string) :
  List.length ws
  = List.length (filter (fun w => negb (existsb (String.eqb w) rs)) ws)
  <-> disjoint ws rs = true.
Proof.
  unfold disjoint. split; intros H.
  - apply filter_length_forallb. now symmetry.
  - now rewrite forallb_filter_id.
Qed.

(** With a table as the loader returns it and four different reserved
    tokens, the call ends as the comparison of the number of loaded rows
    with the number of new words decides. *)
Lemma run_outcome (h : Heap) (w2v : KeyedVectors) :
  loads h w2v ->
  KeyedVectors_ok w2v = true ->
  distinct (reserved (processor (self h))) = true ->
  let n := List.length (index2word w2v) in
  let k := List.length
             (filter (fun w => negb (existsb (String.eqb w)
                                       (reserved (processor (self h)))))
                (index2word w2v)) in
  fst (_build_token2idx_from_w2v h)
  = if (n =? k) || (n =? 1) then Ok tt else Raise ValueError.
Proof.
  intros Hl Hok Hres.
  destruct (KeyedVectors_ok_inv _ Hok) as (Hws & _ & Hn & Hc).
  rewrite (run_reserved_distinct Hl Hres).
  rewrite (build_token2idx_len _ _ Hres Hws).
  set (fresh := fun w => negb (existsb (String.eqb w)
                                 (reserved (processor (self h))))).
  replace (4 + List.length (filter fresh (index2word w2v)) - 4)
    with (List.length (filter fresh (index2word w2v))) by lia.
  unfold broadcast_ndarray. rewrite Hn, Hc, Nat.eqb_refl. cbn [orb].
  rewrite andb_true_r. cbv zeta.
  destruct (_ || _); reflexivity.
Qed.

(* ===================================================================== *)
(** ** Vocabulary construction, further properties *)
(* ===================================================================== *)

(** X1. [_build_token2idx_from_w2v] is all or nothing: when it raises, for
    whatever reason, no attribute of the object or of its processor has
    changed; the loader has been called once. *)
Theorem failed_build_leaves_object (h : Heap) (e : Exn) :
  fst (_build_token2idx_from_w2v h) = Raise e ->
  self (snd (_build_token2idx_from_w2v h)) = self h
  /\ load_calls (world (snd (_build_token2idx_from_w2v h)))
     = S (load_calls (world h)).
Proof.
  destruct (disk (world h) (w2v_path (self h)) (w2v_kwargs (self h)))
    as [w2v|e'] eqn:Hd.
  - rewrite (run_loaded h Hd).
    destruct (setitem_row _ 1 _) as [m1|e1]; [|intros _; split; reflexivity].
    destruct (setitem_from m1 4 _) as [m2|e2]; [discriminate|].
    intros _; split; reflexivity.
  - rewrite (run_load_raises h Hd). intros _; split; reflexivity.
Qed.

Lemma failed_build_leaves_object_witness :
  self (snd (_build_token2idx_from_w2v clash_heap)) = self clash_heap
  /\ load_calls (world (snd (_build_token2idx_from_w2v clash_heap)))
     = S (load_calls (world clash_heap)).
Proof.
  apply (@failed_build_leaves_object clash_heap ValueError). reflexivity.
Defined.

(** X2. Whatever the table and the reserved tokens, the dictionary a
    normal end stores has every key once, its keys are exactly the reserved
    tokens and the loaded words, and it has at most 4 + (number of loaded
    words) entries. *)
Theorem token2idx_keys_exact (h : Heap) (w2v : KeyedVectors) :
  loads h w2v ->
  fst (_build_token2idx_from_w2v h) = Ok tt ->
  let o' := self (snd (_build_token2idx_from_w2v h)) in
  exists d : str_dict,
    w2v_token2idx o' = Some d
    /\ token2idx (processor o') = d
    /\ NoDup (PyDict.keys d)
    /\ (forall t, In t (PyDict.keys d)
                  <-> In t (reserved (processor (self h)))
                      \/ In t (index2word w2v))
    /\ PyDict.len d <= 4 + List.length (index2word w2v).
Proof.
  intros Hl Hok o'.
  destruct (run_ok_installed Hl Hok) as [m Hm]. subst o'. rewrite Hm.
  exists (build_token2idx (processor (self h)) w2v).
  destruct (build_token2idx_inv (processor (self h)) w2v) as (Hnd & Hk & Hu).
  repeat split; try assumption.
  - intros Hin. apply Hk in Hin. now apply in_app_or in Hin.
  - intros Hin. apply Hk. now apply in_or_app.
Qed.

Lemma token2idx_keys_exact_witness :
  let o' := self (snd (_build_token2idx_from_w2v sample_heap)) in
  exists d : str_dict,
    w2v_token2idx o' = Some d
    /\ token2idx (processor o') = d
    /\ NoDup (PyDict.keys d)
    /\ (forall t, In t (PyDict.keys d)
                  <-> In t (reserved sample_processor)
                      \/ In t (index2word sample_w2v))
    /\ PyDict.len d <= 4 + List.length (index2word sample_w2v).
Proof.
  apply (@token2idx_keys_exact sample_heap sample_w2v); reflexivity.
Defined.

(** X3. On a table as the loader returns it, with four different reserved
    tokens, [_build_token2idx_from_w2v] ends normally exactly when no loaded
    word is a reserved token or the table has a single word; in every other
    case it raises the [ValueError] of the slice assignment. *)
Theorem build_succeeds_iff (h : Heap) (w2v : KeyedVectors) :
  loads h w2v ->
  KeyedVectors_ok w2v = true ->
  distinct (reserved (processor (self h))) = true ->
  (fst (_build_token2idx_from_w2v h) = Ok tt
   <-> disjoint (index2word w2v) (reserved (processor (self h))) = true
       \/ List.length (index2word w2v) = 1)
  /\ (fst (_build_token2idx_from_w2v h) = Ok tt
      \/ fst (_build_token2idx_from_w2v h) = Raise ValueError).
Proof.
  intros Hl Hok Hres. rewrite (run_outcome Hl Hok Hres).
  pose proof (fresh_words_all (index2word w2v)
                (reserved (processor (self h)))) as Hdis.
  destruct (_ =? List.length (filter _ _)) eqn:Hk; cbn [orb].
  - apply Nat.eqb_eq in Hk. split; [|now left].
    split; [intros _; left; now apply Hdis|reflexivity].
  - apply Nat.eqb_neq in Hk.
    destruct (List.length (index2word w2v) =? 1) eqn:H1.
    + apply Nat.eqb_eq in H1. split; [|now left].
      split; [intros _; now right|reflexivity].
    + apply Nat.eqb_neq in H1. split; [|now right].
      split; [discriminate|].
      intros [H|H]; [apply Hdis in H|]; contradiction.
Qed.

Lemma build_succeeds_iff_witness :
  (fst (_build_token2idx_from_w2v clash_heap) = Ok tt
   <-> disjoint (index2word clash_w2v) (reserved sample_processor) = true
       \/ List.length (index2word clash_w2v) = 1)
  /\ (fst (_build_token2idx_from_w2v clash_heap) = Ok tt
      \/ fst (_build_token2idx_from_w2v clash_heap) = Raise ValueError).
Proof.
  apply (@build_succeeds_iff clash_heap clash_w2v); reflexivity.
Defined.

(** The four reserved rows and rows of the table have [vector_size]
    entries each. *)
Lemma reserved_rows_then_table_ok (w : World) (w2v : KeyedVectors)
  (rs : list vector) :
  KeyedVectors_ok w2v = true ->
  Forall (fun r => In r (rows (vectors w2v))) rs ->
  let c := vector_size w2v in
  forallb (fun r => List.length r =? c)
    ([zeros c; draw w c; zeros c; zeros c] ++ rs) = true.
Proof.
  intros Hok HF c.
  destruct (KeyedVectors_ok_inv _ Hok) as (_ & Harr & _ & Hc).
  unfold ndarray_ok in Harr. apply andb_true_iff in Harr.
  destruct Harr as [_ Hw]. rewrite forallb_forall in Hw.
  rewrite forallb_app. apply andb_true_iff. split.
  - simpl. unfold zeros. rewrite repeat_length, draw_length, Nat.eqb_refl.
    reflexivity.
  - apply forallb_forall. intros r Hr.
    rewrite Forall_forall in HF. specialize (Hw r (HF r Hr)).
    subst c. now rewrite <- Hc.
Qed.

(** X4. On a table as the loader returns it, with four different reserved
    tokens, every normal end leaves a well-formed matrix with one row per
    entry of the processor's [token2idx] and [embedding_size] columns, and
    [embedding_size] is the [vector_size] of the table. *)
Theorem built_matrix_fits_vocabulary (h : Heap) (w2v : KeyedVectors) :
  loads h w2v ->
  KeyedVectors_ok w2v = true ->
  distinct (reserved (processor (self h))) = true ->
  fst (_build_token2idx_from_w2v h) = Ok tt ->
  let o' := self (snd (_build_token2idx_from_w2v h)) in
  exists m : ndarray,
    w2v_vector_matrix o' = Some m
    /\ ndarray_ok m = true
    /\ shape m = (PyDict.len (token2idx (processor o')), embedding_size o')
    /\ embedding_size o' = vector_size w2v.
Proof.
  intros Hl Hok Hres Hrun o'.
  destruct (run_ok_inv Hl Hok Hres Hrun) as (rs & Hsnd & Hlen & HF).
  pose proof (build_token2idx_len_ge (processor (self h)) w2v Hres) as Hge.
  subst o'. rewrite Hsnd.
  cbn [self installed w2v_vector_matrix processor token2idx embedding_size].
  eexists. split; [reflexivity|]. split; [|split; reflexivity].
  unfold ndarray_ok. cbn [shape rows fst snd]. apply andb_true_iff. split.
  - apply Nat.eqb_eq. rewrite length_app. simpl. lia.
  - now apply reserved_rows_then_table_ok.
Qed.

Lemma built_matrix_fits_vocabulary_witness :
  let o' := self (snd (_build_token2idx_from_w2v sample_heap)) in
  exists m : ndarray,
    w2v_vector_matrix o' = Some m
    /\ ndarray_ok m = true
    /\ shape m = (PyDict.len (token2idx (processor o')), embedding_size o')
    /\ embedding_size o' = vector_size sample_w2v.
Proof.
  apply (@built_matrix_fits_vocabulary sample_heap sample_w2v); reflexivity.
Defined.

(** X5. When the loaded table holds none of the four reserved tokens, every
    index of the built [token2idx] addresses a row of the built matrix, and
    the row has [embedding_size] entries: looking a known token up never
    leaves the matrix. *)
Theorem token_indices_address_rows (h : Heap) (w2v : KeyedVectors) :
  loads h w2v ->
  KeyedVectors_ok w2v = true ->
  distinct (reserved (processor (self h))) = true ->
  disjoint (index2word w2v) (reserved (processor (self h))) = true ->
  let o' := self (snd (_build_token2idx_from_w2v h)) in
  exists m : ndarray,
    w2v_vector_matrix o' = Some m
    /\ forall t i,
         PyDict.get string_dec (token2idx (processor o')) t = Some i ->
         exists row,
           nth_error (rows m) i = Some row
           /\ List.length row = embedding_size o'.
Proof.
  intros Hl Hok Hres Hdis o'.
  destruct (KeyedVectors_ok_inv _ Hok) as (_ & Harr & Hn & _).
  subst o'. rewrite (run_fresh Hl Hok Hres Hdis).
  cbn [snd self installed w2v_vector_matrix processor token2idx embedding_size].
  exists (loaded_matrix (world h) w2v). split; [reflexivity|].
  intros t i Hget.
  assert (Hi : i < 4 + List.length (index2word w2v)).
  { apply get_In in Hget.
    assert (Hv : In i (PyDict.values (loaded_dict (processor (self h)) w2v))).
    { unfold PyDict.values. change i with (snd (t, i)). now apply in_map. }
    rewrite loaded_dict_values in Hv. apply in_seq in Hv. lia. }
  assert (Hrows : List.length (rows (loaded_matrix (world h) w2v))
                  = 4 + List.length (index2word w2v)).
  { unfold loaded_matrix. cbn [rows]. rewrite length_app. simpl.
    unfold ndarray_ok in Harr. apply andb_true_iff in Harr.
    destruct Harr as [Hlen _]. apply Nat.eqb_eq in Hlen. lia. }
  destruct (nth_error (rows (loaded_matrix (world h) w2v)) i) as [row|] eqn:Hrow.
  - exists row. split; [reflexivity|].
    assert (Hw : forallb (fun r => List.length r =? vector_size w2v)
                   (rows (loaded_matrix (world h) w2v)) = true).
    { unfold loaded_matrix. cbn [rows].
      apply reserved_rows_then_table_ok; [exact Hok|].
      apply Forall_forall. now intros r Hr. }
    rewrite forallb_forall in Hw. apply Nat.eqb_eq. apply Hw.
    eapply nth_error_In. exact Hrow.
  - apply nth_error_None in Hrow. lia.
Qed.

Lemma token_indices_address_rows_witness :
  let o' := self (snd (_build_token2idx_from_w2v sample_heap)) in
  exists m : ndarray,
    w2v_vector_matrix o' = Some m
    /\ forall t i,
         PyDict.get string_dec (token2idx (processor o')) t = Some i ->
         exists row,
           nth_error (rows m) i = Some row
           /\ List.length row = embedding_size o'.
Proof.
  apply (@token_indices_address_rows sample_heap sample_w2v); reflexivity.
Defined.

(** X6. A table whose single word is a reserved token is accepted: numpy
    broadcasts its one row into the empty slice, the call ends normally, and
    the token gets the index 4 although the matrix has only the rows 0 to
    3. *)
Theorem single_reserved_word_index_outside (h : Heap) (w2v : KeyedVectors)
  (t : string) :
  loads h w2v ->
  KeyedVectors_ok w2v = true ->
  distinct (reserved (processor (self h))) = true ->
  index2word w2v = [t] ->
  In t (reserved (processor (self h))) ->
  let o' := self (snd (_build_token2idx_from_w2v h)) in
  fst (_build_token2idx_from_w2v h) = Ok tt
  /\ exists (d : str_dict) (m : ndarray),
       w2v_token2idx o' = Some d
       /\ token2idx (processor o') = d
       /\ w2v_vector_matrix o' = Some m
       /\ PyDict.get string_dec d t = Some 4
       /\ fst (shape m) = 4
       /\ nth_error (rows m) 4 = None.
Proof.
  intros Hl Hok Hres Hw Hin o'.
  destruct (KeyedVectors_ok_inv _ Hok) as (Hws & _).
  assert (Hrun : fst (_build_token2idx_from_w2v h) = Ok tt).
  { rewrite (run_outcome Hl Hok Hres), Hw. simpl List.length.
    now rewrite orb_true_r. }
  split; [exact Hrun|].
  assert (Hlen : PyDict.len (build_token2idx (processor (self h)) w2v) = 4).
  { rewrite (build_token2idx_len _ _ Hres Hws), Hw. cbn [filter].
    apply existsb_eqb_true in Hin. rewrite Hin. reflexivity. }
  destruct (run_ok_inv Hl Hok Hres Hrun) as (rs & Hsnd & Hrs & _).
  rewrite Hlen in Hsnd, Hrs. destruct rs; [|discriminate].
  subst o'. rewrite Hsnd.
  cbn [self installed w2v_token2idx w2v_vector_matrix processor token2idx].
  do 2 eexists. repeat split.
  unfold build_token2idx. rewrite Hw. simpl fold_left.
  rewrite of_items_fresh by (apply distinct_NoDup in Hres; exact Hres).
  now rewrite setitem_get_same.
Qed.

Lemma single_reserved_word_index_outside_witness :
  let h := single_word_heap "[UNK]" in
  let o' := self (snd (_build_token2idx_from_w2v h)) in
  fst (_build_token2idx_from_w2v h) = Ok tt
  /\ exists (d : str_dict) (m : ndarray),
       w2v_token2idx o' = Some d
       /\ token2idx (processor o') = d
       /\ w2v_vector_matrix o' = Some m
       /\ PyDict.get string_dec d "[UNK]" = Some 4
       /\ fst (shape m) = 4
       /\ nth_error (rows m) 4 = None.
Proof.
  apply (@single_reserved_word_index_outside (single_word_heap "[UNK]")
           (single_word_w2v "[UNK]") "[UNK]"); try reflexivity.
  simpl. tauto.
Defined.

(** *** The values of a dictionary after an assignment *)

Lemma setitem_values_In (K V : Type)
  (eq_dec : forall x y : K, {x = y} + {x <> y}) (d : PyDict.t K V) k v x :
  In x (PyDict.values (PyDict.setitem eq_dec d k v)) ->
  In x (PyDict.values d) \/ x = v.
Proof.
  induction d as [|[k' v'] d IH]; simpl.
  - intros [H|[]]. now right.
  - destruct (eq_dec k k'); simpl.
    + intros [H|H]; [now right|left; now right].
    + intros [H|H]; [left; now left|].
      destruct (IH H) as [H'|H']; [left; now right|now right].
Qed.

Lemma setitem_values_NoDup (K V : Type)
  (eq_dec : forall x y : K, {x = y} + {x <> y}) (d : PyDict.t K V) k v :
  NoDup (PyDict.values d) -> ~ In v (PyDict.values d) ->
  NoDup (PyDict.values (PyDict.setitem eq_dec d k v)).
Proof.
  induction d as [|[k' v'] d IH]; simpl; intros Hnd Hv.
  - repeat constructor. simpl. tauto.
  - inversion Hnd as [|? ? Hv' Hnd']; subst.
    destruct (eq_dec k k'); simpl.
    + constructor; [tauto|exact Hnd'].
    + constructor.
      * intros Hin. apply setitem_values_In in Hin.
        destruct Hin as [Hin|Heq]; [contradiction|]. subst. tauto.
      * apply IH; [exact Hnd'|tauto].
Qed.

(** On a normal end no two tokens share an index. *)
Lemma run_ok_values_distinct (h : Heap) (w2v : KeyedVectors) :
  loads h w2v ->
  KeyedVectors_ok w2v = true ->
  distinct (reserved (processor (self h))) = true ->
  fst (_build_token2idx_from_w2v h) = Ok tt ->
  NoDup (PyDict.values (build_token2idx (processor (self h)) w2v)).
Proof.
  intros Hl Hok Hres Hrun.
  destruct (KeyedVectors_ok_inv _ Hok) as (Hws & _).
  rewrite (run_outcome Hl Hok Hres) in Hrun.
  destruct (_ =? List.length (filter _ _)) eqn:Hk.
  - apply Nat.eqb_eq in Hk. apply fresh_words_all in Hk.
    rewrite (build_token2idx_fresh _ _ Hres Hws Hk).
    fold (loaded_dict (processor (self h)) w2v).
    rewrite loaded_dict_values. apply seq_NoDup.
  - cbn [orb] in Hrun.
    destruct (List.length (index2word w2v) =? 1) eqn:H1; [|discriminate].
    apply Nat.eqb_eq in H1.
    destruct (index2word w2v) as [|t [|t' ws]] eqn:Hw; try discriminate.
    unfold build_token2idx. rewrite Hw. simpl fold_left.
    rewrite of_items_fresh by (apply distinct_NoDup in Hres; exact Hres).
    apply setitem_values_NoDup; simpl.
    + repeat constructor; simpl; lia.
    + lia.
Qed.

(** X7. On a table as the loader returns it, with four different reserved
    tokens, every normal end leaves [processor.idx2token] as the exact
    inverse of [processor.token2idx]: [idx2token[i] = t] if and only if
    [token2idx[t] = i], also when a loaded word is a reserved token. *)
Theorem idx2token_inverse_on_success (h : Heap) (w2v : KeyedVectors) :
  loads h w2v ->
  KeyedVectors_ok w2v = true ->
  distinct (reserved (processor (self h))) = true ->
  fst (_build_token2idx_from_w2v h) = Ok tt ->
  let p' := processor (self (snd (_build_token2idx_from_w2v h))) in
  forall t i,
    PyDict.get string_dec (token2idx p') t = Some i
    <-> PyDict.get Nat.eq_dec (idx2token p') i = Some t.
Proof.
  intros Hl Hok Hres Hrun p' t i.
  destruct (run_ok_installed Hl Hrun) as [m Hm]. subst p'. rewrite Hm.
  cbn [installed processor token2idx idx2token].
  apply invert_get.
  - apply (build_token2idx_inv (processor (self h)) w2v).
  - now apply run_ok_values_distinct.
Qed.

Lemma idx2token_inverse_on_success_witness :
  let p' :=
    processor (self (snd (_build_token2idx_from_w2v
                            (single_word_heap "[UNK]")))) in
  PyDict.get string_dec (token2idx p') "[UNK]" = Some 4
  <-> PyDict.get Nat.eq_dec (idx2token p') 4 = Some "[UNK]".
Proof.
  apply (@idx2token_inverse_on_success (single_word_heap "[UNK]")
           (single_word_w2v "[UNK]")); reflexivity.
Defined.

(** X8. Every call of [_build_token2idx_from_w2v] calls the loader exactly
    once; it draws [vector_size] random numbers when the loader returns a
    table, also when a later step raises, and none when the loader
    raises. *)
Theorem build_world_effects (h : Heap) :
  let w := world h in
  let w' := world (snd (_build_token2idx_from_w2v h)) in
  load_calls w' = S (load_calls w)
  /\ disk w' = disk w
  /\ rand_source w' = rand_source w
  /\ rand_pos w'
     = rand_pos w
       + match disk w (w2v_path (self h)) (w2v_kwargs (self h)) with
         | Ok w2v => vector_size w2v
         | Raise _ => 0
         end.
Proof.
  cbv zeta.
  destruct (disk (world h) (w2v_path (self h)) (w2v_kwargs (self h)))
    as [w2v|e] eqn:Hd.
  - rewrite (run_loaded h Hd).
    destruct (setitem_row _ 1 _) as [m1|e1]; [|repeat split].
    destruct (setitem_from m1 4 _) as [m2|e2]; repeat split.
  - rewrite (run_load_raises h Hd). cbn. repeat split. lia.
Qed.

(* ===================================================================== *)
(** ** Graph construction, further properties *)
(* ===================================================================== *)

Lemma str_inj (a b : nat) : str a = str b -> a = b.
Proof.
  unfold str. intros H. apply Unsigned.to_uint_inj.
  assert (Hs : Some (Nat.to_uint a) = Some (Nat.to_uint b)).
  { rewrite <- !NilEmpty.usu. now rewrite H. }
  now inversion Hs.
Qed.

Lemma append_inj (p a b : string) :
  (p ++ a)%string = (p ++ b)%string -> a = b.
Proof.
  induction p as [|c p IH]; simpl; intros H; [exact H|].
  inversion H. now apply IH.
Qed.

Lemma NoDup_numbered_names (p : string) (n : nat) :
  NoDup (map (fun i => (p ++ str i)%string) (seq 0 n)).
Proof.
  apply NoDup_map_NoDup_ForallPairs; [|apply seq_NoDup].
  intros a b _ _ H. apply str_inj. eapply append_inj. exact H.
Qed.

Lemma enumerate_indices (A : Type) (l : list A) :
  map fst (enumerate l) = seq 0 (List.length l).
Proof.
  unfold enumerate. apply keys_combine. rewrite length_seq. lia.
Qed.

Section GraphCases.

Variable token_count : WordEmbedding -> nat.

Lemma built_model_placeholders (o : WordEmbedding) (m : ndarray) :
  model_placeholders (built_model token_count o m)
  = map input_of (enumerate (sequence_length o)).
Proof.
  unfold built_model, model_placeholders. cbn [outputs].
  destruct (1 <? _); cbn [placeholders_of]; apply placeholders_of_branches.
Qed.

Lemma built_model_layers (o : WordEmbedding) (m : ndarray) :
  model_layers (built_model token_count o m)
  = map (embedding_of (token_count o) (embedding_size o) m)
      (enumerate (sequence_length o))
    ++ (if 1 <? List.length (sequence_length o)
        then [L_Concatenate "layer_concatenate"] else []).
Proof.
  unfold built_model, model_layers. cbn [outputs].
  rewrite length_map, enumerate_length.
  destruct (1 <? _); cbn [layers_of]; rewrite layers_of_branches;
    [reflexivity|now rewrite app_nil_r].
Qed.

Lemma build_model_writes_nothing_of_processor (h : Heap) :
  processor (self (snd (_build_model token_count h))) = processor (self h).
Proof.
  rewrite build_model_cases.
  destruct (token_count (self h) =? 0); [reflexivity|].
  destruct (sequence_length (self h)); [reflexivity|].
  destruct (w2v_vector_matrix (self h)); [|reflexivity].
  destruct (_ && _); reflexivity.
Qed.

(** The names in a model [_build_model] stores. *)
Lemma built_model_names_distinct (o : WordEmbedding) (m : ndarray) :
  NoDup (model_names (built_model token_count o m)).
Proof.
  unfold model_names.
  rewrite built_model_placeholders, built_model_layers.
  rewrite map_app, !map_map.
  set (n := List.length (sequence_length o)).
  assert (Hin : map (fun x => placeholder_name (input_of x))
                  (enumerate (sequence_length o))
                = map (fun i => ("input_" ++ str i)%string) (seq 0 n)).
  { subst n. rewrite <- enumerate_indices, map_map. reflexivity. }
  assert (Hem : map (fun x => layer_name
                                (embedding_of (token_count o)
                                   (embedding_size o) m x))
                  (enumerate (sequence_length o))
                = map (fun i => ("layer_embedding_" ++ str i)%string) (seq 0 n)).
  { subst n. rewrite <- enumerate_indices, map_map. reflexivity. }
  rewrite Hin, Hem.
  apply NoDup_app; [apply NoDup_numbered_names| |].
  - apply NoDup_app; [apply NoDup_numbered_names| |].
    + destruct (1 <? n); simpl; repeat constructor. simpl. tauto.
    + intros x Hx Hc. apply in_map_iff in Hx. destruct Hx as [i [Hi _]].
      destruct (1 <? n); simpl in Hc; [|contradiction].
      destruct Hc as [Hc|[]]. subst x. simpl in Hc. congruence.
  - intros x Hx Hl. apply in_map_iff in Hx. destruct Hx as [i [Hi _]].
    subst x. apply in_app_or in Hl. destruct Hl as [Hl|Hl].
    + apply in_map_iff in Hl. destruct Hl as [j [Hj _]].
      simpl in Hj. congruence.
    + destruct (1 <? n); simpl in Hl; [|contradiction].
      destruct Hl as [Hl|[]]. simpl in Hl. congruence.
Qed.

(** X9. [_build_model] writes [embed_model] and nothing else: every other
    attribute, the processor and the world are as before, whatever the
    outcome. It raises nothing but the [AttributeError] of a missing
    [w2v_vector_matrix] and the [ValueError] of keras, and when it raises
    the heap is unchanged. *)
Theorem build_model_writes_only_embed_model (h : Heap) :
  let r := _build_model token_count h in
  world (snd r) = world h
  /\ (forall v, set_embed_model v (self (snd r)) = set_embed_model v (self h))
  /\ (fst r = Ok tt
      \/ fst r = Raise (AttributeError "w2v_vector_matrix")
      \/ fst r = Raise ValueError)
  /\ (fst r <> Ok tt -> snd r = h).
Proof.
  cbv zeta. rewrite build_model_cases.
  assert (Hok : forall h' : Heap,
            world h' = world h ->
            (forall v, set_embed_model v (self h') = set_embed_model v (self h)) ->
            world (snd (Ok tt, h')) = world h
            /\ (forall v, set_embed_model v (self (snd (Ok tt, h')))
                          = set_embed_model v (self h))
            /\ (fst (Ok tt, h') = Ok tt
                \/ fst (Ok tt, h') = Raise (AttributeError "w2v_vector_matrix")
                \/ fst (Ok tt, h') = Raise ValueError)
            /\ (fst (Ok tt, h') <> Ok tt -> snd (Ok tt, h') = h)).
  { intros h' Hw Hs. cbn [fst snd]. split; [exact Hw|]. split; [exact Hs|].
    split; [now left|]. intros H. exfalso. now apply H. }
  destruct (token_count (self h) =? 0).
  - now apply Hok.
  - destruct (sequence_length (self h)).
    + apply Hok; [reflexivity|intros v; reflexivity].
    + destruct (w2v_vector_matrix (self h)) as [m|].
      * destruct (_ && _).
        -- apply Hok; [reflexivity|intros v; reflexivity].
        -- cbn [fst snd]. split; [reflexivity|]. split; [reflexivity|].
           split; [right; now right|reflexivity].
      * cbn [fst snd]. split; [reflexivity|]. split; [reflexivity|].
        split; [right; now left|reflexivity].
Qed.

(** X10. With tokens but without a vector matrix, [_build_model] raises
    [AttributeError] in the first turn of the loop and leaves the object as
    it was; with no configured length the loop is not entered, and a model
    without inputs and outputs is stored. *)
Theorem build_model_without_matrix (h : Heap) :
  token_count (self h) <> 0 ->
  w2v_vector_matrix (self h) = None ->
  (sequence_length (self h) <> [] ->
   _build_model token_count h
   = (Raise (AttributeError "w2v_vector_matrix"), h))
  /\ (sequence_length (self h) = [] ->
      fst (_build_model token_count h) = Ok tt
      /\ embed_model (self (snd (_build_model token_count h)))
         = Some (keras_Model [] (inr []))).
Proof.
  intros Htc Hm. rewrite build_model_cases.
  apply Nat.eqb_neq in Htc. rewrite Htc, Hm.
  destruct (sequence_length (self h)); split; try congruence.
  intros _. split; reflexivity.
Qed.

(** X11. In every model [_build_model] stores, the names of the
    placeholders and of the layers are pairwise different, as keras requires
    of the layers of one model. *)
Theorem model_names_distinct (h : Heap) :
  token_count (self h) <> 0 ->
  fst (_build_model token_count h) = Ok tt ->
  exists model : Model,
    embed_model (self (snd (_build_model token_count h))) = Some model
    /\ NoDup (model_names model).
Proof.
  intros Htc. rewrite build_model_cases.
  apply Nat.eqb_neq in Htc. rewrite Htc.
  destruct (sequence_length (self h)).
  - intros _. eexists. split; [reflexivity|]. constructor.
  - destruct (w2v_vector_matrix (self h)) as [m|]; [|discriminate].
    destruct (_ && _); [|discriminate].
    intros _. eexists. split; [reflexivity|].
    apply built_model_names_distinct.
Qed.

(** X12. Building the model again gives the same object: when the token
    count does not depend on [embed_model], a second call of [_build_model]
    ends as the first and leaves the heap the first left. *)
Theorem build_model_idempotent (h : Heap) :
  (forall v o, token_count (set_embed_model v o) = token_count o) ->
  _build_model token_count (snd (_build_model token_count h))
  = _build_model token_count h.
Proof.
  intros Hind. rewrite (build_model_cases token_count h).
  destruct (token_count (self h) =? 0) eqn:Htc.
  - cbn [snd]. rewrite build_model_cases. now rewrite Htc.
  - destruct (sequence_length (self h)) as [|seq_len l] eqn:Hs.
    + cbn [snd]. rewrite build_model_cases. cbn [self world].
      rewrite Hind, Htc. cbn [set_embed_model sequence_length].
      now rewrite Hs.
    + destruct (w2v_vector_matrix (self h)) as [m|] eqn:Hm.
      * destruct (_ && _) eqn:Hc.
        -- cbn [snd]. rewrite build_model_cases. cbn [self world].
           rewrite Hind, Htc.
           cbn [set_embed_model w2v_vector_matrix sequence_length
                  embedding_size].
           rewrite Hs, Hm, Hc. unfold built_model. rewrite Hind. reflexivity.
        -- cbn [snd]. rewrite build_model_cases. now rewrite Htc, Hs, Hm, Hc.
      * cbn [snd]. rewrite build_model_cases. now rewrite Htc, Hs, Hm.
Qed.

(** X13. Lines 60 and 61 together: after a normal end of
    [_build_token2idx_from_w2v], with the token count the size of the
    processor's [token2idx], the stored matrix has the shape keras asks of
    the weights of every embedding layer. [_build_model] then ends normally
    exactly when no length is configured, or the vectors are not empty and
    the configured lengths agree; otherwise it raises [ValueError]. At a
    normal end every embedding layer has [input_dim] and [output_dim] equal
    to the shape of the matrix. *)
Theorem load_then_build_shapes_agree (h : Heap) (w2v : KeyedVectors) :
  (forall o, token_count o = PyDict.len (token2idx (processor o))) ->
  loads h w2v ->
  KeyedVectors_ok w2v = true ->
  distinct (reserved (processor (self h))) = true ->
  fst (_build_token2idx_from_w2v h) = Ok tt ->
  let r := (_build_token2idx_from_w2v ;; _build_model token_count) h in
  exists m : ndarray,
    w2v_vector_matrix (self (snd r)) = Some m
    /\ ndarray_ok m = true
    /\ shape m = (token_count (self (snd r)), embedding_size (self (snd r)))
    /\ (fst r = Ok tt
        <-> sequence_length (self h) = []
            \/ (vector_size w2v <> 0
                /\ lengths_agree (sequence_length (self h)) = true))
    /\ (fst r = Ok tt \/ fst r = Raise ValueError)
    /\ (fst r = Ok tt ->
        exists model : Model,
          embed_model (self (snd r)) = Some model
          /\ (forall l, In l (model_layers model) -> is_embedding l = true ->
                exists name,
                  l = L_Embedding (fst (shape m)) (snd (shape m)) [m] false
                        name)).
Proof.
  intros Htc Hl Hok Hres Hrun r.
  destruct (run_ok_inv Hl Hok Hres Hrun) as (rs & Hsnd & Hlen & HF).
  pose proof (build_token2idx_len_ge (processor (self h)) w2v Hres) as Hge.
  subst r. unfold bind.
  destruct (_build_token2idx_from_w2v h) as [[[]|e] h1]; [|discriminate].
  cbn [snd] in Hsnd. subst h1.
  set (d := build_token2idx (processor (self h)) w2v) in *.
  set (c := vector_size w2v) in *.
  set (m := {| shape := (PyDict.len d, c);
               rows := [zeros c; draw (world h) c; zeros c; zeros c] ++ rs |}).
  set (h1 := {| self := installed (self h) w2v d m;
                world := world_after_load (world h) c |}).
  assert (Hmok : ndarray_ok m = true).
  { unfold ndarray_ok, m. cbn [shape rows fst snd].
    apply andb_true_iff. split.
    - apply Nat.eqb_eq. rewrite length_app. simpl. lia.
    - now apply reserved_rows_then_table_ok. }
  assert (Htc1 : token_count (self h1) = PyDict.len d) by (rewrite Htc; reflexivity).
  assert (Hfit : embedding_fits (token_count (self h1))
                   (embedding_size (self h1)) m
                 = negb (c =? 0)).
  { unfold embedding_fits, shape_eqb. rewrite Htc1.
    cbn [h1 self installed embedding_size m shape fst snd].
    rewrite !Nat.eqb_refl.
    replace (0 <? PyDict.len d) with true by (symmetry; apply Nat.ltb_lt; lia).
    cbn [andb]. rewrite andb_true_r.
    assert (Hpos : forall n, (0 <? n) = negb (n =? 0))
      by (intros [|n]; reflexivity).
    apply Hpos. }
  destruct (build_model_keeps token_count h1) as (_ & _ & He & Hmx & _).
  pose proof (build_model_writes_nothing_of_processor h1) as Hp.
  exists m.
  split; [rewrite Hmx; reflexivity|]. split; [exact Hmok|].
  split.
  { rewrite Htc, Hp, He. reflexivity. }
  rewrite build_model_cases.
  assert (Htc0 : (token_count (self h1) =? 0) = false).
  { apply Nat.eqb_neq. rewrite Htc1. lia. }
  rewrite Htc0.
  change (sequence_length (self h1)) with (sequence_length (self h)).
  change (w2v_vector_matrix (self h1)) with (Some m).
  cbv beta iota. rewrite Hfit.
  destruct (sequence_length (self h)) as [|seq_len l] eqn:Hs.
  - cbn [fst snd self set_embed_model embed_model].
    split; [split; [intros _; now left|reflexivity]|].
    split; [now left|]. intros _. eexists. split; [reflexivity|].
    intros lyr [].
  - destruct (c =? 0) eqn:Hc0; cbn [negb andb].
    + apply Nat.eqb_eq in Hc0. cbn [fst snd].
      split; [split; [discriminate|]|split; [now right|discriminate]].
      intros [H|[H _]]; [discriminate|contradiction].
    + apply Nat.eqb_neq in Hc0.
      destruct (lengths_agree (seq_len :: l)) eqn:Hag; cbn [fst snd].
      * split; [split; [intros _; right; now split|reflexivity]|].
        split; [now left|]. intros _.
        cbn [self set_embed_model embed_model].
        exists (built_model token_count (self h1) m). split; [reflexivity|].
        intros lyr Hin He'. rewrite built_model_layers in Hin.
        apply in_app_or in Hin. destruct Hin as [Hin|Hin].
        -- apply in_map_iff in Hin. destruct Hin as [ix [Heq _]]. subst lyr.
           unfold embedding_of. rewrite Htc1.
           cbn [h1 self installed embedding_size m shape fst snd]. eauto.
        -- destruct (1 <? _); simpl in Hin; [|contradiction].
           destruct Hin as [Heq|[]]. subst lyr. discriminate.
      * split; [split; [discriminate|]|split; [now right|discriminate]].
        intros [H|[_ H]]; discriminate.
Qed.

(** X21. When keras takes the matrix and the configured lengths agree,
    [_build_model] ends normally and stores a model with exactly one input
    placeholder and one embedding layer for each configured length: it has
    as many inputs as configured lengths, and the i-th input has shape
    [(sequence_length[i],)]. *)
Theorem agreeing_lengths_one_branch_each (h : Heap) (m : ndarray) :
  token_count (self h) <> 0 ->
  w2v_vector_matrix (self h) = Some m ->
  embedding_fits (token_count (self h)) (embedding_size (self h)) m = true ->
  lengths_agree (sequence_length (self h)) = true ->
  let r := _build_model token_count h in
  fst r = Ok tt
  /\ exists model : Model,
       embed_model (self (snd r)) = Some model
       /\ List.length (inputs model) = List.length (sequence_length (self h))
       /\ model_placeholders model = inputs model
       /\ List.length (filter is_embedding (model_layers model))
          = List.length (sequence_length (self h))
       /\ (forall i seq_len,
             nth_error (sequence_length (self h)) i = Some seq_len ->
             nth_error (inputs model) i
             = Some (L_Input [seq_len] ("input_" ++ str i)%string)).
Proof.
  intros Htc Hm Hfit Hag r. subst r.
  rewrite (build_model_run token_count h Htc Hm Hfit Hag).
  cbn [fst snd self set_embed_model embed_model].
  split; [reflexivity|]. exists (built_model token_count (self h) m).
  split; [reflexivity|].
  rewrite built_model_placeholders, built_model_embeddings.
  unfold built_model. cbn [inputs].
  rewrite !length_map, enumerate_length.
  repeat split.
  intros i seq_len Hi.
  rewrite nth_error_map, (nth_error_enumerate _ _ Hi). reflexivity.
Qed.

(** X22. When keras takes the matrix and the configured lengths agree,
    [_build_model] concatenates the branch outputs if and only if more than
    one length is configured: with two or more lengths the output of the
    stored model is the concatenation of all branch outputs, and with
    exactly one length no [Concatenate] layer is made and the output is the
    list of the single branch's output. *)
Theorem agreeing_lengths_concatenate_iff_several (h : Heap) (m : ndarray) :
  token_count (self h) <> 0 ->
  w2v_vector_matrix (self h) = Some m ->
  embedding_fits (token_count (self h)) (embedding_size (self h)) m = true ->
  lengths_agree (sequence_length (self h)) = true ->
  let r := _build_model token_count h in
  let branches :=
    map (branch_of (token_count (self h)) (embedding_size (self h)) m)
      (enumerate (sequence_length (self h))) in
  fst r = Ok tt
  /\ exists model : Model,
       embed_model (self (snd r)) = Some model
       /\ (existsb is_concatenate (model_layers model) = true
           <-> 1 < List.length (sequence_length (self h)))
       /\ (1 < List.length (sequence_length (self h)) ->
           outputs model
           = inl (CallList (L_Concatenate "layer_concatenate") branches))
       /\ (forall seq_len, sequence_length (self h) = [seq_len] ->
           existsb is_concatenate (model_layers model) = false
           /\ outputs model
              = inr [Call (L_Embedding (token_count (self h))
                             (embedding_size (self h)) [m] false
                             "layer_embedding_0")
                       (L_Input [seq_len] "input_0")]).
Proof.
  intros Htc Hm Hfit Hag r branches. subst r.
  rewrite (build_model_run token_count h Htc Hm Hfit Hag).
  cbn [fst snd self set_embed_model embed_model].
  split; [reflexivity|]. exists (built_model token_count (self h) m).
  split; [reflexivity|].
  rewrite built_model_layers, existsb_app, no_concatenate_among_embeddings.
  unfold built_model. cbn [outputs orb]. fold branches.
  assert (Hlen : List.length branches = List.length (sequence_length (self h))).
  { subst branches. now rewrite length_map, enumerate_length. }
  rewrite Hlen.
  destruct (1 <? List.length (sequence_length (self h))) eqn:Hn.
  - apply Nat.ltb_lt in Hn. split; [|split].
    + split; [intros _; exact Hn|reflexivity].
    + reflexivity.
    + intros seq_len Heq. rewrite Heq in Hn. simpl in Hn. lia.
  - apply Nat.ltb_ge in Hn. split; [|split].
    + split; [discriminate|lia].
    + lia.
    + intros seq_len Heq. subst branches. rewrite Heq.
      split; reflexivity.
Qed.

End GraphCases.

Lemma build_model_without_matrix_witness :
  let token_count := fun _ : WordEmbedding => 1 in
  (sequence_length (self sample_heap) <> [] ->
   _build_model token_count sample_heap
   = (Raise (AttributeError "w2v_vector_matrix"), sample_heap))
  /\ (sequence_length (self sample_heap) = [] ->
      fst (_build_model token_count sample_heap) = Ok tt
      /\ embed_model (self (snd (_build_model token_count sample_heap)))
         = Some (keras_Model [] (inr []))).
Proof.
  apply (@build_model_without_matrix (fun _ => 1) sample_heap).
  - simpl. lia.
  - reflexivity.
Defined.

Lemma model_names_distinct_witness :
  exists model : Model,
    embed_model (self (snd (_build_model sample_token_count agreeing_heap)))
    = Some model
    /\ NoDup (model_names model).
Proof.
  apply (@model_names_distinct sample_token_count agreeing_heap).
  - vm_compute. discriminate.
  - reflexivity.
Defined.

Lemma build_model_idempotent_witness :
  _build_model sample_token_count
    (snd (_build_model sample_token_count sample_loaded_heap))
  = _build_model sample_token_count sample_loaded_heap.
Proof.
  apply (@build_model_idempotent sample_token_count sample_loaded_heap).
  intros v o. reflexivity.
Defined.

Lemma load_then_build_shapes_agree_witness :
  let r :=
    (_build_token2idx_from_w2v ;; _build_model sample_token_count)
      sample_heap in
  exists m : ndarray,
    w2v_vector_matrix (self (snd r)) = Some m
    /\ ndarray_ok m = true
    /\ shape m
       = (sample_token_count (self (snd r)), embedding_size (self (snd r)))
    /\ (fst r = Ok tt
        <-> sequence_length (self sample_heap) = []
            \/ (vector_size sample_w2v <> 0
                /\ lengths_agree (sequence_length (self sample_heap)) = true))
    /\ (fst r = Ok tt \/ fst r = Raise ValueError)
    /\ (fst r = Ok tt ->
        exists model : Model,
          embed_model (self (snd r)) = Some model
          /\ (forall l, In l (model_layers model) -> is_embedding l = true ->
                exists name,
                  l = L_Embedding (fst (shape m)) (snd (shape m)) [m] false
                        name)).
Proof.
  apply (@load_then_build_shapes_agree sample_token_count sample_heap
           sample_w2v); try reflexivity.
Defined.

Lemma agreeing_lengths_one_branch_each_witness :
  let r := _build_model sample_token_count agreeing_heap in
  fst r = Ok tt
  /\ exists model : Model,
       embed_model (self (snd r)) = Some model
       /\ List.length (inputs model) = 2
       /\ model_placeholders model = inputs model
       /\ List.length (filter is_embedding (model_layers model)) = 2
       /\ (forall i seq_len,
             nth_error [Some 20; Some 20] i = Some seq_len ->
             nth_error (inputs model) i
             = Some (L_Input [seq_len] ("input_" ++ str i)%string)).
Proof.
  apply (@agreeing_lengths_one_branch_each sample_token_count agreeing_heap
           sample_matrix).
  - vm_compute. discriminate.
  - reflexivity.
  - reflexivity.
  - reflexivity.
Defined.

Lemma agreeing_lengths_concatenate_iff_several_witness :
  let r := _build_model sample_token_count agreeing_heap in
  let branches :=
    map (branch_of 6 3 sample_matrix) [(0, Some 20); (1, Some 20)] in
  fst r = Ok tt
  /\ exists model : Model,
       embed_model (self (snd r)) = Some model
       /\ (existsb is_concatenate (model_layers model) = true <-> 1 < 2)
       /\ (1 < 2 ->
           outputs model
           = inl (CallList (L_Concatenate "layer_concatenate") branches))
       /\ (forall seq_len, [Some 20; Some 20] = [seq_len] ->
           existsb is_concatenate (model_layers model) = false
           /\ outputs model
              = inr [Call (L_Embedding 6 3 [sample_matrix] false
                             "layer_embedding_0")
                       (L_Input [seq_len] "input_0")]).
Proof.
  apply (@agreeing_lengths_concatenate_iff_several sample_token_count
           agreeing_heap sample_matrix).
  - vm_compute. discriminate.
  - reflexivity.
  - reflexivity.
  - reflexivity.
Defined.

(* ===================================================================== *)
(** ** [analyze_corpus], further properties *)
(* ===================================================================== *)

(** A raise of [_build_token2idx_from_w2v] leaves the object and has called
    the loader once; so has a normal end. *)
Lemma run_raise_keeps_self (h : Heap) (e : Exn) :
  fst (_build_token2idx_from_w2v h) = Raise e ->
  self (snd (_build_token2idx_from_w2v h)) = self h.
Proof.
  destruct (disk (world h) (w2v_path (self h)) (w2v_kwargs (self h)))
    as [w2v|e'] eqn:Hd.
  - rewrite (run_loaded h Hd).
    destruct (setitem_row _ 1 _) as [m1|e1]; [|reflexivity].
    destruct (setitem_from m1 4 _) as [m2|e2]; [discriminate|reflexivity].
  - now rewrite (run_load_raises h Hd).
Qed.

Lemma run_load_calls (h : Heap) :
  load_calls (world (snd (_build_token2idx_from_w2v h)))
  = S (load_calls (world h)).
Proof.
  destruct (disk (world h) (w2v_path (self h)) (w2v_kwargs (self h)))
    as [w2v|e'] eqn:Hd.
  - rewrite (run_loaded h Hd).
    destruct (setitem_row _ 1 _) as [m1|e1]; [|reflexivity].
    destruct (setitem_from m1 4 _) as [m2|e2]; reflexivity.
  - now rewrite (run_load_raises h Hd).
Qed.

Section AnalyzeCorpusFacts.

Variables X Y : Type.
Variable wrap_as_tuple_x : X -> X.
Variable wrap_as_tuple_y : Y -> Y.
Variable Embedding_analyze_corpus : X -> Y -> M unit.

(** X14. When the table is not loaded yet and
    [_build_token2idx_from_w2v] raises, [analyze_corpus] raises the same
    exception without calling the base-class method, and the object is as
    before the call. *)
Theorem analyze_corpus_propagates (x : X) (y : Y) (h : Heap) (e : Exn) :
  w2v_model_loaded (self h) = false ->
  fst (_build_token2idx_from_w2v h) = Raise e ->
  analyze_corpus wrap_as_tuple_x wrap_as_tuple_y Embedding_analyze_corpus x y h
  = (Raise e, snd (_build_token2idx_from_w2v h))
  /\ self (snd (analyze_corpus wrap_as_tuple_x wrap_as_tuple_y
                  Embedding_analyze_corpus x y h))
     = self h.
Proof.
  intros Hf Hr.
  assert (Hac : analyze_corpus wrap_as_tuple_x wrap_as_tuple_y
                  Embedding_analyze_corpus x y h
                = (Raise e, snd (_build_token2idx_from_w2v h))).
  { unfold analyze_corpus, bind, get_self. rewrite Hf. cbn [negb].
    destruct (_build_token2idx_from_w2v h) as [[u|e'] h1]; cbn [fst snd] in *;
      [discriminate|congruence]. }
  split; [exact Hac|].
  rewrite Hac. cbn [snd]. now apply run_raise_keeps_self with (e := e).
Qed.

(** X15. A load that fails is tried again by every later call: while the
    loader raises for the path of the object, each call of [analyze_corpus]
    calls the loader once more and leaves the object as it was, whatever the
    base-class method does. *)
Theorem failed_loads_are_retried (calls : list (X * Y)) : forall (h : Heap) (e : Exn),
  w2v_model_loaded (self h) = false ->
  disk (world h) (w2v_path (self h)) (w2v_kwargs (self h)) = Raise e ->
  let h' :=
    analyze_corpus_calls wrap_as_tuple_x wrap_as_tuple_y
      Embedding_analyze_corpus calls h in
  self h' = self h
  /\ load_calls (world h') = load_calls (world h) + List.length calls.
Proof.
  induction calls as [|[x y] calls' IH]; intros h e Hf Hd; simpl.
  - split; [reflexivity|lia].
  - assert (Hac : analyze_corpus wrap_as_tuple_x wrap_as_tuple_y
                    Embedding_analyze_corpus x y h
                  = (Raise e, {| self := self h;
                                 world := world_after_call (world h) |})).
    { unfold analyze_corpus, bind, get_self. rewrite Hf. cbn [negb].
      now rewrite (run_load_raises h Hd). }
    rewrite Hac. cbn [snd].
    destruct (IH {| self := self h; world := world_after_call (world h) |} e)
      as [Hs Hc]; [exact Hf|exact Hd|].
    split; [exact Hs|]. rewrite Hc. cbn. lia.
Qed.

(** The base-class method, which is outside this file, does not load the
    table and does not write the attributes the loading sets. *)
Hypothesis base_keeps_w2v :
  forall x y h, keeps_w2v h (snd (Embedding_analyze_corpus x y h)).

Lemma calls_keep_loaded (calls : list (X * Y)) : forall h : Heap,
  w2v_model_loaded (self h) = true ->
  keeps_w2v h
    (analyze_corpus_calls wrap_as_tuple_x wrap_as_tuple_y
       Embedding_analyze_corpus calls h).
Proof.
  induction calls as [|[x y] calls' IH]; intros h Hf; simpl.
  - unfold keeps_w2v. tauto.
  - assert (Hac : analyze_corpus wrap_as_tuple_x wrap_as_tuple_y
                    Embedding_analyze_corpus x y h
                  = Embedding_analyze_corpus (wrap_as_tuple_x x)
                      (wrap_as_tuple_y y) h).
    { unfold analyze_corpus, bind, get_self. now rewrite Hf. }
    rewrite Hac.
    destruct (base_keeps_w2v (wrap_as_tuple_x x) (wrap_as_tuple_y y) h)
      as (Hf' & He & Hm & Hd & Hc).
    rewrite Hf in Hf'.
    destruct (IH _ Hf') as (Hf1 & He1 & Hm1 & Hd1 & Hc1).
    unfold keeps_w2v. repeat split; congruence.
Qed.

(** X16. From an object whose table is not loaded, when the loading ends
    normally, a sequence of one or more calls of [analyze_corpus] calls the
    loader exactly once, in its first call, and ends with the flag set and
    with the [w2v_token2idx], [w2v_vector_matrix] and [embedding_size] that
    first call stored. *)
Theorem first_call_loads_exactly_once (x : X) (y : Y) (calls : list (X * Y))
  (h : Heap) :
  w2v_model_loaded (self h) = false ->
  fst (_build_token2idx_from_w2v h) = Ok tt ->
  let h1 := snd (_build_token2idx_from_w2v h) in
  let h' :=
    analyze_corpus_calls wrap_as_tuple_x wrap_as_tuple_y
      Embedding_analyze_corpus ((x, y) :: calls) h in
  load_calls (world h') = S (load_calls (world h))
  /\ w2v_model_loaded (self h') = true
  /\ w2v_token2idx (self h') = w2v_token2idx (self h1)
  /\ w2v_vector_matrix (self h') = w2v_vector_matrix (self h1)
  /\ embedding_size (self h') = embedding_size (self h1).
Proof.
  intros Hf Hr h1 h'.
  pose proof (successful_load_sets_flag h Hr) as Hf1.
  pose proof (run_load_calls h) as Hc1.
  assert (Hac : snd (analyze_corpus wrap_as_tuple_x wrap_as_tuple_y
                       Embedding_analyze_corpus x y h)
                = snd (Embedding_analyze_corpus (wrap_as_tuple_x x)
                         (wrap_as_tuple_y y) h1)).
  { subst h1. unfold analyze_corpus, bind, get_self. rewrite Hf. cbn [negb].
    destruct (_build_token2idx_from_w2v h) as [[u|e'] h0]; cbn [fst snd] in *;
      [reflexivity|discriminate]. }
  destruct (base_keeps_w2v (wrap_as_tuple_x x) (wrap_as_tuple_y y) h1)
    as (Hf2 & He2 & Hm2 & Hd2 & Hc2).
  fold h1 in Hf1, Hc1. rewrite Hf1 in Hf2.
  subst h'. cbn [analyze_corpus_calls]. rewrite Hac.
  destruct (calls_keep_loaded calls _ Hf2) as (Hf3 & He3 & Hm3 & Hd3 & Hc3).
  repeat split; congruence.
Qed.

End AnalyzeCorpusFacts.

Lemma analyze_corpus_propagates_witness :
  let base := fun (_ : list (list string)) (_ : list string) =>
                _build_model sample_token_count in
  analyze_corpus (fun x => x) (fun y => y) base [["of"]] ["a"] clash_heap
  = (Raise ValueError, snd (_build_token2idx_from_w2v clash_heap))
  /\ self (snd (analyze_corpus (fun x => x) (fun y => y) base [["of"]] ["a"]
                  clash_heap))
     = self clash_heap.
Proof.
  intros base.
  apply (@analyze_corpus_propagates (list (list string)) (list string)
           (fun x => x) (fun y => y) base [["of"]] ["a"] clash_heap ValueError);
    reflexivity.
Defined.

Lemma failed_loads_are_retried_witness :
  let base := fun (_ : list (list string)) (_ : list string) =>
                _build_model sample_token_count in
  let calls := [([["the"; "of"]], ["a"]); ([["of"]], ["b"])] in
  let h' := analyze_corpus_calls (fun x => x) (fun y => y) base calls
              missing_heap in
  self h' = self missing_heap
  /\ load_calls (world h') = load_calls (world missing_heap) + 2.
Proof.
  intros base calls.
  apply (@failed_loads_are_retried (list (list string)) (list string)
           (fun x => x) (fun y => y) base calls missing_heap
           (LibraryError "No such file or directory")); reflexivity.
Defined.

Lemma first_call_loads_exactly_once_witness :
  let base := fun (_ : list (list string)) (_ : list string) =>
                _build_model sample_token_count in
  let h1 := snd (_build_token2idx_from_w2v sample_heap) in
  let h' := analyze_corpus_calls (fun x => x) (fun y => y) base
              [([["the"; "of"]], ["a"]); ([["of"]], ["b"])] sample_heap in
  load_calls (world h') = S (load_calls (world sample_heap))
  /\ w2v_model_loaded (self h') = true
  /\ w2v_token2idx (self h') = w2v_token2idx (self h1)
  /\ w2v_vector_matrix (self h') = w2v_vector_matrix (self h1)
  /\ embedding_size (self h') = embedding_size (self h1).
Proof.
  intros base.
  apply (@first_call_loads_exactly_once (list (list string)) (list string)
           (fun x => x) (fun y => y) base).
  - intros x y h0. apply build_model_keeps_w2v.
  - reflexivity.
  - reflexivity.
Defined.

(* ===================================================================== *)
(** ** The constructor, properties *)
(* ===================================================================== *)

Section ConstructorFacts.

Variable Task : Type.
Variable Embedding_init :
  option Task -> SeqLenArg -> nat -> option Processor -> M unit.
Variable token_count : WordEmbedding -> nat.

(** The base-class constructor, which is outside this file, does not load
    the table and does not write [w2v_path], [w2v_kwargs] or
    [w2v_model_loaded]. *)
Hypothesis base_keeps_init :
  forall task s n p h, keeps_init h (snd (Embedding_init task s n p h)).

(** X17. Without a processor the constructor loads nothing: it stores the
    path and the keyword arguments (an empty dictionary for [None]), leaves
    [w2v_model_loaded] at [False], does not call the loader, and ends as the
    base-class constructor does. *)
Theorem init_without_processor_is_lazy (path : string) (task : option Task)
  (kwargs : option Kwargs) (s : SeqLenArg) (h : Heap) :
  let r := __init__ Embedding_init token_count path task kwargs s None h in
  fst r = fst (Embedding_init task s 0 None (init_heap path kwargs h))
  /\ w2v_path (self (snd r)) = path
  /\ w2v_kwargs (self (snd r))
     = match kwargs with None => [] | Some k => k end
  /\ w2v_model_loaded (self (snd r)) = false
  /\ load_calls (world (snd r)) = load_calls (world h).
Proof.
  cbv zeta. unfold __init__, bind, assign, ret. cbn [self world].
  fold (init_heap path kwargs h).
  destruct (base_keeps_init task s 0 None (init_heap path kwargs h))
    as (Hp & Hk & Hf & Hw).
  destruct (Embedding_init task s 0 None (init_heap path kwargs h))
    as [[[]|e] h1]; cbn [fst snd] in *; rewrite Hp, Hk, Hf, Hw;
    repeat split.
Qed.

(** X18. With a processor, when the base-class constructor ends normally,
    the constructor calls the loader exactly once; when the building of the
    vocabulary raises, the constructor raises the same exception with
    [w2v_model_loaded] still [False], and when it ends normally
    [w2v_model_loaded] is [True] after the constructor, whatever
    [_build_model] does. *)
Theorem init_with_processor_loads_once (path : string) (task : option Task)
  (kwargs : option Kwargs) (s : SeqLenArg) (p : Processor) (h : Heap) :
  fst (Embedding_init task s 0 (Some p) (init_heap path kwargs h)) = Ok tt ->
  let h1 := snd (Embedding_init task s 0 (Some p) (init_heap path kwargs h)) in
  let r := __init__ Embedding_init token_count path task kwargs s (Some p) h in
  load_calls (world (snd r)) = S (load_calls (world h))
  /\ (forall e, fst (_build_token2idx_from_w2v h1) = Raise e ->
        fst r = Raise e /\ w2v_model_loaded (self (snd r)) = false)
  /\ (fst (_build_token2idx_from_w2v h1) = Ok tt ->
        w2v_model_loaded (self (snd r)) = true).
Proof.
  intros Hb h1 r.
  destruct (base_keeps_init task s 0 (Some p) (init_heap path kwargs h))
    as (_ & _ & Hf & Hw).
  fold h1 in Hf, Hw. cbn [init_heap self world set_w2v_model_loaded
                           w2v_model_loaded] in Hf, Hw.
  pose proof (run_load_calls h1) as Hc. rewrite Hw in Hc.
  assert (Hr : r = (_build_token2idx_from_w2v ;; _build_model token_count) h1).
  { subst r h1. unfold __init__. unfold bind at 1 2 3 4. unfold assign.
    cbn [self world]. fold (init_heap path kwargs h).
    destruct (Embedding_init task s 0 (Some p) (init_heap path kwargs h))
      as [[[]|e] h0]; cbn [fst snd] in *; [reflexivity|discriminate]. }
  rewrite Hr. unfold bind.
  destruct (_build_token2idx_from_w2v h1) as [[[]|e] h2] eqn:Hrun;
    cbn [fst snd] in *.
  - destruct (build_model_keeps token_count h2) as (Hw2 & Hf2 & _).
    rewrite Hw2. split; [exact Hc|]. split; [discriminate|].
    intros _. rewrite Hf2.
    pose proof (successful_load_sets_flag h1) as Hs.
    rewrite Hrun in Hs. now apply Hs.
  - split; [exact Hc|]. split; [|discriminate].
    intros e' He'. inversion He'; subst e'. split; [reflexivity|].
    pose proof (@run_raise_keeps_self h1 e) as Hs.
    rewrite Hrun in Hs. cbn [fst snd] in Hs. rewrite Hs by reflexivity.
    exact Hf.
Qed.

End ConstructorFacts.

Lemma sample_Embedding_init_keeps task s n p h :
  keeps_init h (snd (sample_Embedding_init task s n p h)).
Proof. unfold keeps_init. repeat split. Qed.

Lemma init_without_processor_is_lazy_witness :
  let path := "tests/test-data/sample_w2v.txt" in
  let s := SeqLenTuple [12; 20] in
  let r := __init__ sample_Embedding_init sample_token_count path None None s
             None sample_heap in
  fst r = fst (sample_Embedding_init None s 0 None
                 (init_heap path None sample_heap))
  /\ w2v_path (self (snd r)) = path
  /\ w2v_kwargs (self (snd r)) = []
  /\ w2v_model_loaded (self (snd r)) = false
  /\ load_calls (world (snd r)) = load_calls (world sample_heap).
Proof.
  intros path s.
  apply (@init_without_processor_is_lazy unit sample_Embedding_init
           sample_token_count sample_Embedding_init_keeps path None None s
           sample_heap).
Defined.

Lemma init_with_processor_loads_once_witness :
  let path := "tests/test-data/sample_w2v.txt" in
  let s := SeqLenTuple [12; 20] in
  let h1 := snd (sample_Embedding_init None s 0 (Some sample_processor)
                   (init_heap path None sample_heap)) in
  let r := __init__ sample_Embedding_init sample_token_count path None None s
             (Some sample_processor) sample_heap in
  load_calls (world (snd r)) = S (load_calls (world sample_heap))
  /\ (forall e, fst (_build_token2idx_from_w2v h1) = Raise e ->
        fst r = Raise e /\ w2v_model_loaded (self (snd r)) = false)
  /\ (fst (_build_token2idx_from_w2v h1) = Ok tt ->
        w2v_model_loaded (self (snd r)) = true).
Proof.
  intros path s.
  apply (@init_with_processor_loads_once unit sample_Embedding_init
           sample_token_count sample_Embedding_init_keeps path None None s
           sample_processor sample_heap).
  reflexivity.
Defined.

(* ===================================================================== *)
(** ** Loading again *)
(* ===================================================================== *)

(** X19. What the flag protects: a second call of
    [_build_token2idx_from_w2v] on the same table ends normally and stores
    the same [token2idx] and the same processor vocabulary, but the row of
    the unknown token is drawn again, from the next numbers of the random
    generator; every other row of the matrix is as after the first call. *)
Theorem second_build_redraws_unknown_row (h : Heap) (w2v : KeyedVectors) :
  loads h w2v ->
  KeyedVectors_ok w2v = true ->
  distinct (reserved (processor (self h))) = true ->
  disjoint (index2word w2v) (reserved (processor (self h))) = true ->
  let h1 := snd (_build_token2idx_from_w2v h) in
  let h2 := snd (_build_token2idx_from_w2v h1) in
  let c := vector_size w2v in
  fst (_build_token2idx_from_w2v h1) = Ok tt
  /\ w2v_token2idx (self h2) = w2v_token2idx (self h1)
  /\ processor (self h2) = processor (self h1)
  /\ exists m1 m2 : ndarray,
       w2v_vector_matrix (self h1) = Some m1
       /\ w2v_vector_matrix (self h2) = Some m2
       /\ nth_error (rows m1) 1 = Some (draw (world h) c)
       /\ nth_error (rows m2) 1
          = Some (map (rand_source (world h)) (seq (rand_pos (world h) + c) c))
       /\ (forall i, i <> 1 -> nth_error (rows m2) i = nth_error (rows m1) i).
Proof.
  intros Hl Hok Hres Hdis h1 h2 c.
  assert (H1 : _build_token2idx_from_w2v h
               = (Ok tt,
                  {| self := installed (self h) w2v
                               (loaded_dict (processor (self h)) w2v)
                               (loaded_matrix (world h) w2v);
                     world := world_after_load (world h) (vector_size w2v) |}))
    by exact (run_fresh Hl Hok Hres Hdis).
  subst h2 h1. rewrite H1. cbn [snd].
  set (h1 := {| self := installed (self h) w2v
                          (loaded_dict (processor (self h)) w2v)
                          (loaded_matrix (world h) w2v);
                world := world_after_load (world h) (vector_size w2v) |}).
  assert (Hl1 : loads h1 w2v) by exact Hl.
  assert (Hres1 : distinct (reserved (processor (self h1))) = true)
    by exact Hres.
  assert (Hdis1 : disjoint (index2word w2v) (reserved (processor (self h1)))
                  = true) by exact Hdis.
  rewrite (run_fresh Hl1 Hok Hres1 Hdis1). cbn [fst snd self].
  split; [reflexivity|]. split; [reflexivity|]. split; [reflexivity|].
  exists (loaded_matrix (world h) w2v), (loaded_matrix (world h1) w2v).
  split; [reflexivity|]. split; [reflexivity|]. split; [reflexivity|].
  split; [reflexivity|].
  intros i Hi. unfold loaded_matrix. cbn [rows].
  destruct i as [|[|i]]; [reflexivity|contradiction|reflexivity].
Qed.

Lemma second_build_redraws_unknown_row_witness :
  let h1 := snd (_build_token2idx_from_w2v sample_heap) in
  let h2 := snd (_build_token2idx_from_w2v h1) in
  fst (_build_token2idx_from_w2v h1) = Ok tt
  /\ w2v_token2idx (self h2) = w2v_token2idx (self h1)
  /\ processor (self h2) = processor (self h1)
  /\ exists m1 m2 : ndarray,
       w2v_vector_matrix (self h1) = Some m1
       /\ w2v_vector_matrix (self h2) = Some m2
       /\ nth_error (rows m1) 1 = Some (draw (world sample_heap) 3)
       /\ nth_error (rows m2) 1
          = Some (map (rand_source (world sample_heap))
                    (seq (rand_pos (world sample_heap) + 3) 3))
       /\ (forall i, i <> 1 -> nth_error (rows m2) i = nth_error (rows m1) i).
Proof.
  apply (@second_build_redraws_unknown_row sample_heap sample_w2v);
    reflexivity.
Defined.

(** The constructor with a processor, once the base-class constructor has
    ended normally, is lines 60 and 61 on the heap that constructor left. *)
Lemma init_with_processor_run (Task : Type)
  (Embedding_init : option Task -> SeqLenArg -> nat -> option Processor -> M unit)
  (token_count : WordEmbedding -> nat) (path : string) (task : option Task)
  (kwargs : option Kwargs) (s : SeqLenArg) (p : Processor) (h : Heap) :
  fst (Embedding_init task s 0 (Some p) (init_heap path kwargs h)) = Ok tt ->
  __init__ Embedding_init token_count path task kwargs s (Some p) h
  = (_build_token2idx_from_w2v ;; _build_model token_count)
      (snd (Embedding_init task s 0 (Some p) (init_heap path kwargs h))).
Proof.
  intros Hb. unfold __init__. unfold bind at 1 2 3 4. unfold assign.
  cbn [self world]. fold (init_heap path kwargs h).
  destruct (Embedding_init task s 0 (Some p) (init_heap path kwargs h))
    as [[[]|e] h0]; cbn [fst snd] in *; [reflexivity|discriminate].
Qed.

Section ObjectLife.

Variable Task : Type.
Variable Embedding_init :
  option Task -> SeqLenArg -> nat -> option Processor -> M unit.
Variable token_count : WordEmbedding -> nat.
Variables X Y : Type.
Variable wrap_as_tuple_x : X -> X.
Variable wrap_as_tuple_y : Y -> Y.
Variable Embedding_analyze_corpus : X -> Y -> M unit.

Hypothesis base_keeps_init :
  forall task s n p h, keeps_init h (snd (Embedding_init task s n p h)).
Hypothesis base_keeps_w2v :
  forall x y h, keeps_w2v h (snd (Embedding_analyze_corpus x y h)).

(** X20. An object constructed with a processor, whose table loaded
    normally in the constructor, never loads again: after the constructor
    and any sequence of calls of [analyze_corpus] the loader has been called
    exactly once, and the flag is set. *)
Theorem constructed_object_loads_once (path : string) (task : option Task)
  (kwargs : option Kwargs) (s : SeqLenArg) (p : Processor)
  (calls : list (X * Y)) (h : Heap) :
  fst (Embedding_init task s 0 (Some p) (init_heap path kwargs h)) = Ok tt ->
  fst (_build_token2idx_from_w2v
         (snd (Embedding_init task s 0 (Some p) (init_heap path kwargs h))))
  = Ok tt ->
  let h2 :=
    snd (__init__ Embedding_init token_count path task kwargs s (Some p) h) in
  let h' :=
    analyze_corpus_calls wrap_as_tuple_x wrap_as_tuple_y
      Embedding_analyze_corpus calls h2 in
  load_calls (world h') = S (load_calls (world h))
  /\ w2v_model_loaded (self h') = true
  /\ w2v_token2idx (self h') = w2v_token2idx (self h2)
  /\ w2v_vector_matrix (self h') = w2v_vector_matrix (self h2)
  /\ embedding_size (self h') = embedding_size (self h2).
Proof.
  intros Hb Hr h2 h'.
  destruct (base_keeps_init task s 0 (Some p) (init_heap path kwargs h))
    as (_ & _ & _ & Hw).
  set (h1 := snd (Embedding_init task s 0 (Some p) (init_heap path kwargs h)))
    in *.
  cbn [init_heap world] in Hw.
  pose proof (run_load_calls h1) as Hc. rewrite Hw in Hc.
  pose proof (successful_load_sets_flag h1 Hr) as Hf.
  assert (H2 : world h2 = world (snd (_build_token2idx_from_w2v h1))
               /\ w2v_model_loaded (self h2) = true).
  { subst h2. rewrite (init_with_processor_run _ _ _ _ _ _ _ _ Hb).
    fold h1. unfold bind.
    destruct (_build_token2idx_from_w2v h1) as [[[]|e] h3];
      cbn [fst snd] in *; [|discriminate].
    destruct (build_model_keeps token_count h3) as (Hw3 & Hf3 & _).
    split; [exact Hw3|congruence]. }
  destruct H2 as [Hw2 Hf2].
  destruct (@calls_keep_loaded X Y wrap_as_tuple_x wrap_as_tuple_y
              Embedding_analyze_corpus base_keeps_w2v calls h2 Hf2)
    as (Hf' & He' & Hm' & Hd' & Hc').
  subst h'. repeat split; congruence.
Qed.

End ObjectLife.

Lemma constructed_object_loads_once_witness :
  let path := "tests/test-data/sample_w2v.txt" in
  let s := SeqLenTuple [12; 20] in
  let base := fun (_ : list (list string)) (_ : list string) =>
                _build_model sample_token_count in
  let calls := [([["the"; "of"]], ["a"]); ([["of"]], ["b"])] in
  let h2 :=
    snd (__init__ sample_Embedding_init sample_token_count path None None s
           (Some sample_processor) sample_heap) in
  let h' := analyze_corpus_calls (fun x => x) (fun y => y) base calls h2 in
  load_calls (world h') = S (load_calls (world sample_heap))
  /\ w2v_model_loaded (self h') = true
  /\ w2v_token2idx (self h') = w2v_token2idx (self h2)
  /\ w2v_vector_matrix (self h') = w2v_vector_matrix (self h2)
  /\ embedding_size (self h') = embedding_size (self h2).
Proof.
  intros path s base calls.
  apply (@constructed_object_loads_once unit sample_Embedding_init
           sample_token_count (list (list string)) (list string)
           (fun x => x) (fun y => y) base sample_Embedding_init_keeps).
  - intros x y h0. apply build_model_keeps_w2v.
  - reflexivity.
  - reflexivity.
Defined.
